(** * recipe-chatbot demo scripts: a shallow embedding and its properties

    The two command-line scripts of the repository are embedded here:
    - [scripts/generate_traces.py]  (module [GenerateTraces])
    - [scripts/create_dataset.py]   (module [CreateDataset])

    Python values that the scripts probe dynamically ([isinstance],
    [hasattr], [msg["role"]], [.get]) are embedded as the universe [pyval];
    dictionaries are finite maps with string keys.  The external
    collaborators (the recipe agent, the Langfuse client) are oracles that
    answer a call from the history of the calls made so far, and every call
    is recorded in the world that the scripts thread through. *)

From Stdlib Require Import ZArith Ascii String.
From stdpp Require Import base strings list gmap.

Local Open Scope string_scope.
Local Open Scope Z_scope.
Local Open Scope list_scope.

(** ** Python values, exceptions and the operations the scripts use *)
Module Py.

#[warnings="-register-all"]
Inductive pyval : Type :=
| PNone
| PBool (b : bool)
| PInt (n : Z)
| PStr (s : string)
| PList (l : list pyval)
| PDict (d : gmap string pyval).

(** Exceptions deriving from Python's [Exception] class.  [OtherError]
    stands for whatever a collaborator raises, carrying its [str(e)]. *)
Inductive exn : Type :=
| KeyError (key : string)
| TypeError (text : string)
| AttributeError (text : string)
| OtherError (text : string).

(** [str(e)]: a [KeyError] prints the repr of its key. *)
Definition exn_str (e : exn) : string :=
  match e with
  | KeyError key => "'" +:+ key +:+ "'"
  | TypeError text | AttributeError text | OtherError text => text
  end.

Inductive result (A : Type) : Type :=
| Ok (a : A)
| Raise (e : exn).
Arguments Ok {A} a.
Arguments Raise {A} e.

Definition rbind {A B} (r : result A) (k : A → result B) : result B :=
  match r with
  | Ok a => k a
  | Raise e => Raise e
  end.

Definition type_name (v : pyval) : string :=
  match v with
  | PNone => "NoneType"
  | PBool _ => "bool"
  | PInt _ => "int"
  | PStr _ => "str"
  | PList _ => "list"
  | PDict _ => "dict"
  end.

(** [bool(v)] *)
Definition truthy (v : pyval) : bool :=
  match v with
  | PNone => false
  | PBool b => b
  | PInt n => negb (n =? 0)
  | PStr s => negb (String.eqb s "")
  | PList l => match l with [] => false | _ :: _ => true end
  | PDict d => negb (Nat.eqb (size d) 0)
  end.

(** [isinstance(v, dict)] *)
Definition is_dict (v : pyval) : bool :=
  match v with PDict _ => true | _ => false end.

(** [v == s] for a string literal [s] *)
Definition eq_str (v : pyval) (s : string) : bool :=
  match v with PStr t => String.eqb t s | _ => false end.

Fixpoint chars (s : string) : list pyval :=
  match s with
  | EmptyString => []
  | String c rest => PStr (String c EmptyString) :: chars rest
  end.

(** The elements a [for x in v] loop visits. *)
Definition iter (v : pyval) : result (list pyval) :=
  match v with
  | PList l => Ok l
  | PStr s => Ok (chars s)
  | PDict d => Ok (PStr <$> (map_to_list d).*1)
  | _ => Raise (TypeError ("'" +:+ type_name v +:+ "' object is not iterable"))
  end.

(** [v[key]] for a string key *)
Definition getitem (v : pyval) (key : string) : result pyval :=
  match v with
  | PDict d =>
      match d !! key with
      | Some x => Ok x
      | None => Raise (KeyError key)
      end
  | PStr _ => Raise (TypeError "string indices must be integers, not 'str'")
  | PList _ => Raise (TypeError "list indices must be integers or slices, not str")
  | _ => Raise (TypeError ("'" +:+ type_name v +:+ "' object is not subscriptable"))
  end.

(** [v.get(key, dflt)] *)
Definition get (v : pyval) (key : string) (dflt : pyval) : result pyval :=
  match v with
  | PDict d => Ok (default dflt (d !! key))
  | _ => Raise (AttributeError
                  ("'" +:+ type_name v +:+ "' object has no attribute 'get'"))
  end.

(** [key in v] for a string key, as used on a dict *)
Definition has_key (v : pyval) (key : string) : bool :=
  match v with
  | PDict d => bool_decide (is_Some (d !! key))
  | _ => false
  end.

Definition lower_ascii (c : ascii) : ascii :=
  let n := nat_of_ascii c in
  if (Nat.leb 65 n && Nat.leb n 90)%bool then ascii_of_nat (n + 32) else c.

(** [str.lower] on byte strings: ASCII letters are folded. *)
Fixpoint str_lower (s : string) : string :=
  match s with
  | EmptyString => EmptyString
  | String c rest => String (lower_ascii c) (str_lower rest)
  end.

(** [v.lower()] *)
Definition lower (v : pyval) : result string :=
  match v with
  | PStr s => Ok (str_lower s)
  | _ => Raise (AttributeError
                  ("'" +:+ type_name v +:+ "' object has no attribute 'lower'"))
  end.

(** [s.startswith(p)] *)
Fixpoint startswith (p s : string) : bool :=
  match p, s with
  | EmptyString, _ => true
  | String a p', String b s' => if Ascii.eqb a b then startswith p' s' else false
  | String _ _, EmptyString => false
  end.

(** [needle in hay] on strings *)
Fixpoint contains (needle hay : string) : bool :=
  if startswith needle hay then true
  else match hay with
       | EmptyString => false
       | String _ rest => contains needle rest
       end.

End Py.
Import Py.

(** ** Computations that call a collaborator

    [M W A] is a computation over a world [W] that returns an [A] or raises;
    the world keeps what happened before the exception. *)
Definition M (W A : Type) : Type := W → result A * W.

#[global] Instance M_ret {W} : MRet (M W) := λ A a w, (Ok a, w).

#[global] Instance M_bind {W} : MBind (M W) := λ A B k c w,
  match c w with
  | (Ok a, w') => k a w'
  | (Raise e, w') => (Raise e, w')
  end.

(** A pure step that may raise. *)
Definition lift {W A} (r : result A) : M W A := λ w, (r, w).

(** [try: c  except Exception as e: h e] *)
Definition try_except {W A} (c : M W A) (h : exn → M W A) : M W A :=
  λ w, match c w with
       | (Ok a, w') => (Ok a, w')
       | (Raise e, w') => h e w'
       end.

(** ** scripts/generate_traces.py *)
Module GenerateTraces.

(** A row of [dietary_queries.csv] with the columns the script reads. *)
Record query_row : Type := {
  row_id : Z;
  row_query : string;
  row_dietary_restriction : string
}.

(** The [DataFrame] read from the catalog: its rows in file order. *)
Definition dataframe : Type := list query_row.

(** The dict built by [select_demo_queries]; [main] adds
    ['response_number'] to its copies. *)
Record query_data : Type := {
  id : Z;
  query : string;
  dietary_restriction : string;
  response_number : option Z
}.

(** The dict returned by [generate_trace]; the ['error'] key exists only
    on failure. *)
Record trace_result : Type := {
  tr_query_id : Z;
  tr_query : string;
  tr_dietary_restriction : string;
  tr_response : pyval;
  tr_success : bool;
  tr_error : option string
}.

(** What the script prints, one constructor per [console.print]. *)
Inductive console_msg : Type :=
| MsgTitle
| MsgRule
| MsgQueriesNotFound
| MsgLoaded (n : nat)
| MsgSelected (n : nat)
| MsgSelectedHeader
| MsgSelectedQuery (i : nat) (restriction : string) (query60 : string)
| MsgGenerating (total_traces queries : nat)
| MsgSentAutomatically
| MsgSummaryHeader
| MsgSuccessful (n : nat)
| MsgFailed (n : nat)
| MsgFailedHeader
| MsgFailedTrace (restriction : string) (error : string)
| MsgCovered (restrictions : gset string)
| MsgComplete
| MsgCheckDashboard (n : nat)
| MsgNamingHint
| MsgGenerationFailed
| MsgGenerationSucceeded.

(** The world of the script: the calls the agent has received, oldest
    first, and the console output. *)
Record world : Type := {
  agent_calls : list (pyval * pyval);
  console : list console_msg
}.

Definition selected_ids : list Z := [26; 43; 46; 48].

(** [df[df['id'] == query_id]] *)
Definition rows_with_id (df : dataframe) (query_id : Z) : dataframe :=
  filter (λ r, row_id r = query_id) df.

Fixpoint select_loop (df : dataframe) (ids : list Z)
    (selected_queries : list query_data) : list query_data :=
  match ids with
  | [] => selected_queries
  | query_id :: ids' =>
      match rows_with_id df query_id with
      | [] => select_loop df ids' selected_queries
      | row0 :: _ =>
          select_loop df ids'
            (selected_queries ++
               [{| id := row_id row0;
                   query := row_query row0;
                   dietary_restriction := row_dietary_restriction row0;
                   response_number := None |}])
      end
  end.

Definition select_demo_queries (df : dataframe) : list query_data :=
  select_loop df selected_ids [].

(** The loop over [response_messages]: the first message whose role is
    "assistant" gives the response and ends the loop. *)
Fixpoint assistant_loop (msgs : list pyval) (assistant_response : pyval)
    : result pyval :=
  match msgs with
  | [] => Ok assistant_response
  | msg :: msgs' =>
      rbind (getitem msg "role") (λ role,
        if eq_str role "assistant" then getitem msg "content"
        else assistant_loop msgs' assistant_response)
  end.

Definition print (m : console_msg) : M world () := λ w,
  (Ok (), {| agent_calls := agent_calls w; console := console w ++ [m] |}).

Section Collaborators.

(** [backend.utils.get_agent_response]: its answer may depend on every
    call it has received before. *)
Variable agent : list (pyval * pyval) → pyval → pyval → result pyval.

(** [homeworks/hw3/data/dietary_queries.csv] as [pd.read_csv] reads it;
    [None] when the path does not exist. *)
Variable queries_file : option dataframe.

Definition get_agent_response (messages metadata : pyval) : M world pyval :=
  λ w, (agent (agent_calls w) messages metadata,
        {| agent_calls := agent_calls w ++ [(messages, metadata)];
           console := console w |}).

Definition load_dietary_queries : M world (option dataframe) :=
  match queries_file with
  | None => print MsgQueriesNotFound ;; mret None
  | Some df => mret (Some df)
  end.

Definition user_messages (query : string) : pyval :=
  PList [PDict (<["role" := PStr "user"]> (<["content" := PStr query]> ∅))].

Definition agent_metadata (query_data : query_data) : pyval :=
  PDict (<["dietary_restriction" := PStr (dietary_restriction query_data)]>
          (<["response_number" := PInt (default 1 (response_number query_data))]> ∅)).

Definition generate_trace (query_data : query_data) : M world trace_result :=
  let query := query query_data in
  let dietary_restriction := dietary_restriction query_data in
  try_except
    (let messages := user_messages query in
     let metadata := agent_metadata query_data in
     response_messages ← get_agent_response messages metadata;
     msgs ← lift (iter response_messages);
     assistant_response ← lift (assistant_loop msgs (PStr ""));
     mret {| tr_query_id := id query_data;
             tr_query := query;
             tr_dietary_restriction := dietary_restriction;
             tr_response := assistant_response;
             tr_success := true;
             tr_error := None |})
    (λ e,
     mret {| tr_query_id := id query_data;
             tr_query := query;
             tr_dietary_restriction := dietary_restriction;
             tr_response := PStr "";
             tr_success := false;
             tr_error := Some (exn_str e) |}).

(** The copies of one query that [main] appends: [range(3)] gives the
    response numbers 1, 2, 3. *)
Definition generations_of (query_data : query_data) : list GenerateTraces.query_data :=
  (λ i : Z,
     {| id := id query_data;
        query := query query_data;
        dietary_restriction := dietary_restriction query_data;
        response_number := Some (i + 1) |}) <$> [0; 1; 2].

Fixpoint build_generations (demo_queries all_generations : list query_data)
    : list query_data :=
  match demo_queries with
  | [] => all_generations
  | query_data :: rest =>
      build_generations rest (all_generations ++ generations_of query_data)
  end.

(** [for generation_data in track(all_generations, ...)] *)
Fixpoint generate_loop (all_generations : list query_data)
    (traces : list trace_result) : M world (list trace_result) :=
  match all_generations with
  | [] => mret traces
  | generation_data :: rest =>
      trace ← generate_trace generation_data;
      generate_loop rest (traces ++ [trace])
  end.

Fixpoint print_each (msgs : list console_msg) : M world () :=
  match msgs with
  | [] => mret ()
  | m :: rest => print m ;; print_each rest
  end.

Definition successful (traces : list trace_result) : list trace_result :=
  filter (λ t, tr_success t = true) traces.

Definition failed (traces : list trace_result) : list trace_result :=
  filter (λ t, tr_success t ≠ true) traces.

Definition covered (successful_traces : list trace_result) : gset string :=
  list_to_set (tr_dietary_restriction <$> successful_traces).

(** The summary that [main] prints after the generation loop. *)
Definition report (traces : list trace_result) : M world bool :=
  let successful_traces := successful traces in
  let failed_traces := failed traces in
  print MsgSummaryHeader ;;
  print (MsgSuccessful (length successful_traces)) ;;
  print (MsgFailed (length failed_traces)) ;;
  (match failed_traces with
   | [] => mret ()
   | _ :: _ =>
       print MsgFailedHeader ;;
       print_each
         ((λ t, MsgFailedTrace (tr_dietary_restriction t)
                  (default "Unknown error" (tr_error t))) <$> failed_traces)
   end) ;;
  let restrictions_covered := covered successful_traces in
  print (MsgCovered restrictions_covered) ;;
  print MsgComplete ;;
  print (MsgCheckDashboard (length successful_traces)) ;;
  print MsgNamingHint ;;
  mret (bool_decide (0 < length successful_traces)%nat).

Definition main : M world bool :=
  print MsgTitle ;;
  print MsgRule ;;
  df ← load_dietary_queries;
  match df with
  | None => mret false
  | Some df =>
      print (MsgLoaded (length df)) ;;
      let demo_queries := select_demo_queries df in
      print (MsgSelected (length demo_queries)) ;;
      print MsgSelectedHeader ;;
      print_each
        (imap (λ i q, MsgSelectedQuery (S i) (dietary_restriction q)
                        (substring 0 60 (query q))) demo_queries) ;;
      let total_traces := (length demo_queries * 3)%nat in
      print (MsgGenerating total_traces (length demo_queries)) ;;
      print MsgSentAutomatically ;;
      let all_generations := build_generations demo_queries [] in
      traces ← generate_loop all_generations [];
      report traces
  end.

(** The [__main__] block; the value is the exit status of the process. *)
Definition script : M world Z :=
  success ← main;
  if negb success then print MsgGenerationFailed ;; mret 1
  else print MsgGenerationSucceeded ;; mret 0.

End Collaborators.

(** *** Vocabulary for the statements below *)

(** The record that [select_demo_queries] builds from a catalog row. *)
Definition query_of_row (r : query_row) : query_data :=
  {| id := row_id r;
     query := row_query r;
     dietary_restriction := row_dietary_restriction r;
     response_number := None |}.

(** The identifier occurs in the catalog. *)
Definition present (df : dataframe) (query_id : Z) : Prop :=
  query_id ∈ row_id <$> df.

(** The world after one more call to the agent, made for [qd]. *)
Definition called (w : world) (qd : query_data) : world :=
  {| agent_calls :=
       agent_calls w ++ [(user_messages (query qd), agent_metadata qd)];
     console := console w |}.

(** The two shapes of a [generate_trace] result. *)
Definition succeeded (qd : query_data) (resp : pyval) : trace_result :=
  {| tr_query_id := id qd;
     tr_query := query qd;
     tr_dietary_restriction := dietary_restriction qd;
     tr_response := resp;
     tr_success := true;
     tr_error := None |}.

Definition failed_with (qd : query_data) (e : exn) : trace_result :=
  {| tr_query_id := id qd;
     tr_query := query qd;
     tr_dietary_restriction := dietary_restriction qd;
     tr_response := PStr "";
     tr_success := false;
     tr_error := Some (exn_str e) |}.

(** What the agent answers to the request [qd] in the world [w]. *)
Definition answer (agent : list (pyval * pyval) → pyval → pyval → result pyval)
    (w : world) (qd : query_data) : result pyval :=
  agent (agent_calls w) (user_messages (query qd)) (agent_metadata qd).

(** The message is a dict whose ["role"] is the string [r]. *)
Definition has_role (r : string) (msg : pyval) : bool :=
  match msg with
  | PDict d => match d !! "role" with Some v => eq_str v r | None => false end
  | _ => false
  end.

(** The message is a dict with a ["role"] key. *)
Definition carries_role (msg : pyval) : bool :=
  match msg with
  | PDict d => bool_decide (is_Some (d !! "role"))
  | _ => false
  end.

(** A copy of [qd] that asks for the response number [n]. *)
Definition numbered (n : Z) (qd : query_data) : query_data :=
  {| id := id qd;
     query := query qd;
     dietary_restriction := dietary_restriction qd;
     response_number := Some n |}.

(** The call that [generate_trace] makes for [qd]. *)
Definition agent_call (qd : query_data) : pyval * pyval :=
  (user_messages (query qd), agent_metadata qd).



(** Sample inputs. *)
Definition sample_query : query_data :=
  {| id := 48;
     query := "I need a gluten-free dinner";
     dietary_restriction := "gluten-free";
     response_number := Some 2 |}.

Definition fresh_world : world := {| agent_calls := []; console := [] |}.

Definition message (role content : string) : pyval :=
  PDict (<["role" := PStr role]> (<["content" := PStr content]> ∅)).

(** An agent whose client raises an exception that has no message. *)
Definition silent_failure_agent : list (pyval * pyval) → pyval → pyval → result pyval :=
  λ _ _ _, Raise (OtherError "").

(** An agent whose client gives up with a message. *)
Definition timeout_agent : list (pyval * pyval) → pyval → pyval → result pyval :=
  λ _ _ _, Raise (OtherError "Request timed out.").


(** An agent whose answer holds a message without a ["role"] key before
    the assistant's message. *)
Definition sloppy_agent : list (pyval * pyval) → pyval → pyval → result pyval :=
  λ _ _ _, Ok (PList [message "system" "You are a chef";
                      PDict (<["content" := PStr "thinking"]> ∅);
                      message "assistant" "Try lentil soup"]).

(** The stub that always answers with one assistant message. *)
Definition stub_agent : list (pyval * pyval) → pyval → pyval → result pyval :=
  λ _ _ _, Ok (PList [message "assistant" "Here's a recipe"]).


(** An agent whose answer goes on, after the assistant's message, with
    things that are not messages. *)
Definition trailing_agent : list (pyval * pyval) → pyval → pyval → result pyval :=
  λ _ _ _, Ok (PList [message "system" "You are a chef";
                      message "assistant" "Try lentil soup";
                      PStr "usage: 120 tokens";
                      PNone]).


(** A catalog with the four demo identifiers among other rows. *)
Definition sample_catalog : dataframe :=
  [ {| row_id := 1; row_query := "vegan lunch"; row_dietary_restriction := "vegan" |};
    {| row_id := 26; row_query := "sugar-free dessert"; row_dietary_restriction := "sugar-free" |};
    {| row_id := 43; row_query := "vegetarian pasta"; row_dietary_restriction := "vegetarian" |};
    {| row_id := 46; row_query := "paleo breakfast"; row_dietary_restriction := "paleo" |};
    {| row_id := 48; row_query := "gluten-free dinner"; row_dietary_restriction := "gluten-free" |} ].

End GenerateTraces.

(** ** scripts/create_dataset.py *)
Module CreateDataset.

(** A trace as the platform returns it.  [id] is always there; for the
    attributes that the script probes with [hasattr], [None] means that the
    attribute is absent ([Some PNone] is Python's [None]). *)
Record trace : Type := {
  id : string;
  name : option string;
  input : option pyval;
  output : option pyval;
  observations : option (list string)
}.

Record observation : Type := {
  metadata : option pyval
}.

Record dataset : Type := {
  dataset_name : string;
  dataset_id : string
}.

(** The dict that [extract_trace_data] returns. *)
Record item : Type := {
  query : pyval;
  dietary_restriction : pyval;
  response : pyval;
  trace_id : string
}.

(** The keyword arguments of [langfuse.create_dataset_item]. *)
Record dataset_item : Type := {
  di_dataset_name : string;
  di_input : pyval;
  di_expected_output : pyval;
  di_metadata : pyval
}.

Inductive api_call : Type :=
| CallLangfuse
| CallFetchTraces (limit : nat) (order_by : string)
| CallGetObservation (obs_id : string)
| CallCreateDataset (name description : string)
| CallCreateDatasetItem (di : dataset_item).

(** The Langfuse client: every operation answers from the calls made so
    far, and may raise. *)
Record platform : Type := {
  new_client : list api_call → result ();
  fetch_traces : list api_call → nat → string → result (list trace);
  get_observation : list api_call → string → result observation;
  create_dataset : list api_call → string → string → result dataset;
  create_dataset_item : list api_call → dataset_item → result ()
}.

Inductive console_msg : Type :=
| MsgFetching
| MsgFound (n : nat)
| MsgFetchError (text : string)
| MsgExtractError (trace_id : string) (text : string)
| MsgCreating
| MsgCreated (name : string)
| MsgAdded (n : nat)
| MsgDatasetId (dataset_id : string)
| MsgCreateError (text : string).

Record world : Type := {
  calls : list api_call;
  console : list console_msg
}.

Definition print (m : console_msg) : M world () := λ w,
  (Ok (), {| calls := calls w; console := console w ++ [m] |}).

(** A call to the platform: answered from the history, then recorded. *)
Definition call {A} (c : api_call) (answer : list api_call → result A)
    : M world A := λ w,
  (answer (calls w), {| calls := calls w ++ [c]; console := console w |}).

(** [trace.name and trace.name.startswith("Query:")] *)
Definition is_demo_trace (trace : trace) : bool :=
  match name trace with
  | Some n => negb (String.eqb n "") && startswith "Query:" n
  | None => false
  end.

(** The filtering loop of [get_demo_traces], with its [break]. *)
Fixpoint demo_loop (data demo_traces : list trace) : list trace :=
  match data with
  | [] => demo_traces
  | trace :: rest =>
      if is_demo_trace trace then
        let demo_traces := demo_traces ++ [trace] in
        if Nat.leb 12 (length demo_traces) then demo_traces
        else demo_loop rest demo_traces
      else demo_loop rest demo_traces
  end.

(** The loop over [trace.input['messages']]. *)
Fixpoint user_loop (messages : list pyval) (query : pyval) : result pyval :=
  match messages with
  | [] => Ok query
  | msg :: rest =>
      rbind (get msg "role" PNone) (λ role,
        if eq_str role "user" then get msg "content" (PStr "")
        else user_loop rest query)
  end.

Definition extract_query (trace : trace) : result pyval :=
  match input trace with
  | Some inp =>
      if truthy inp && (is_dict inp && has_key inp "messages") then
        rbind (getitem inp "messages") (λ messages,
        rbind (iter messages) (λ msgs,
        user_loop msgs (PStr "")))
      else Ok (PStr "")
  | None => Ok (PStr "")
  end.

Definition extract_response (trace : trace) : result pyval :=
  match output trace with
  | Some out =>
      if truthy out && is_dict out then get out "content" (PStr "")
      else Ok (PStr "")
  | None => Ok (PStr "")
  end.

(** The fallback on the query text. *)
Definition infer_restriction (dietary_restriction query : pyval)
    : result pyval :=
  if negb (truthy dietary_restriction) && truthy query then
    rbind (lower query) (λ query_lower,
      Ok (if contains "gluten" query_lower then PStr "gluten-free"
          else if contains "sugar-free" query_lower then PStr "sugar-free"
          else if contains "vegetarian" query_lower then PStr "vegetarian"
          else if contains "paleo" query_lower then PStr "paleo"
          else dietary_restriction))
  else Ok dietary_restriction.

(** [item and item['response']] *)
Definition valid (item : option item) : bool :=
  match item with
  | Some i => truthy (response i)
  | None => false
  end.

Definition to_dataset_item (dataset : dataset) (item : item) : dataset_item :=
  {| di_dataset_name := dataset_name dataset;
     di_input :=
       PDict (<["query" := query item]>
             (<["dietary_restriction" := dietary_restriction item]>
             (<["response" := response item]> ∅)));
     di_expected_output := PNone;
     di_metadata :=
       PDict (<["source_trace_id" := PStr (trace_id item)]>
             (<["dietary_restriction" := dietary_restriction item]> ∅)) |}.

Section Platform.

Variable langfuse : platform.

Definition Langfuse : M world () :=
  call CallLangfuse (new_client langfuse).

Definition get_demo_traces : M world (list trace) :=
  try_except
    (Langfuse ;;
     print MsgFetching ;;
     traces ← call (CallFetchTraces 20 "timestamp.desc")
                (λ h, fetch_traces langfuse h 20%nat "timestamp.desc");
     let demo_traces := demo_loop traces [] in
     print (MsgFound (length demo_traces)) ;;
     mret demo_traces)
    (λ e, print (MsgFetchError (exn_str e)) ;; mret []).

(** The restriction read from the first observation's metadata; whatever
    goes wrong while fetching it is swallowed. *)
Definition metadata_restriction (trace : trace) : M world pyval :=
  match observations trace with
  | Some (obs_id :: _) =>
      if negb (String.eqb obs_id "") then
        try_except
          (Langfuse ;;
           observation ← call (CallGetObservation obs_id)
                           (λ h, get_observation langfuse h obs_id);
           match metadata observation with
           | Some md =>
               if truthy md then lift (get md "dietary_restriction" (PStr ""))
               else mret (PStr "")
           | None => mret (PStr "")
           end)
          (λ _, mret (PStr ""))
      else mret (PStr "")
  | Some [] | None => mret (PStr "")
  end.

Definition extract_trace_data (trace : trace) : M world (option item) :=
  try_except
    (query ← lift (extract_query trace);
     response ← lift (extract_response trace);
     dietary_restriction ← metadata_restriction trace;
     dietary_restriction ← lift (infer_restriction dietary_restriction query);
     mret (Some {| query := query;
                   dietary_restriction := dietary_restriction;
                   response := response;
                   trace_id := id trace |}))
    (λ e, print (MsgExtractError (id trace) (exn_str e)) ;; mret None).

(** [for item in track(dataset_items, ...)] *)
Fixpoint upload_loop (dataset : dataset) (dataset_items : list (option item))
    : M world () :=
  match dataset_items with
  | [] => mret ()
  | item :: rest =>
      match item with
      | Some i =>
          if truthy (response i) then
            call (CallCreateDatasetItem (to_dataset_item dataset i))
              (λ h, create_dataset_item langfuse h (to_dataset_item dataset i)) ;;
            upload_loop dataset rest
          else upload_loop dataset rest
      | None => upload_loop dataset rest
      end
  end.

Definition demo_dataset_name : string := "Dietary Adherence Demo".
Definition demo_dataset_description : string :=
  "Demo traces for testing LLM-as-a-Judge prompts on dietary adherence evaluation".

Definition create_langfuse_dataset (dataset_items : list (option item))
    : M world (option dataset) :=
  try_except
    (Langfuse ;;
     print MsgCreating ;;
     dataset ← call (CallCreateDataset demo_dataset_name demo_dataset_description)
                 (λ h, create_dataset langfuse h
                         demo_dataset_name demo_dataset_description);
     print (MsgCreated (dataset_name dataset)) ;;
     upload_loop dataset dataset_items ;;
     print (MsgAdded (length (filter (λ i, valid i = true) dataset_items))) ;;
     print (MsgDatasetId (dataset_id dataset)) ;;
     mret (Some dataset))
    (λ e, print (MsgCreateError (exn_str e)) ;; mret None).

End Platform.

(** *** Vocabulary for the statements below *)

(** The keyword table of the specification, in its order. *)
Definition restriction_keywords : list (string * string) :=
  [("gluten", "gluten-free");
   ("sugar-free", "sugar-free");
   ("vegetarian", "vegetarian");
   ("paleo", "paleo")].

(** The first keyword of the table that occurs in the text decides; the
    restriction is empty when none occurs. *)
Definition keyword_restriction (text : string) : string :=
  match List.find (λ kw, contains kw.1 text) restriction_keywords with
  | Some kw => kw.2
  | None => ""
  end.



(** The dataset items that the platform has been asked to create. *)
Definition uploaded (history : list api_call) : list dataset_item :=
  omap (λ c, match c with CallCreateDatasetItem di => Some di | _ => None end)
    history.

(** The output of the trace is a dict. *)
Definition output_is_dict (trace : trace) : bool :=
  match output trace with
  | Some out => is_dict out
  | None => false
  end.


(** Sample inputs. *)
Definition fresh_world : world := {| calls := []; console := [] |}.

(** A platform that answers every call, with no traces and no metadata. *)
Definition quiet_platform : platform :=
  {| new_client := λ _, Ok ();
     fetch_traces := λ _ _ _, Ok [];
     get_observation := λ _ _, Ok {| metadata := None |};
     create_dataset := λ _ name _, Ok {| dataset_name := name; dataset_id := "ds-1" |};
     create_dataset_item := λ _ _, Ok () |}.

(** A platform that cannot be reached. *)
Definition offline_platform : platform :=
  {| new_client := λ _, Ok ();
     fetch_traces := λ _ _ _, Raise (OtherError "Connection refused");
     get_observation := λ _ _, Raise (OtherError "Connection refused");
     create_dataset := λ _ _ _, Raise (OtherError "Connection refused");
     create_dataset_item := λ _ _, Raise (OtherError "Connection refused") |}.

Definition user_message (content : string) : pyval :=
  PDict (<["role" := PStr "user"]> (<["content" := PStr content]> ∅)).

(** A trace of the recipe bot without observations and without output. *)
Definition gluten_trace : trace :=
  {| id := "t-1";
     name := Some "Query: I need a gluten-free dinner";
     input := Some (PDict (<["messages" :=
                PList [user_message "I need a gluten-free dinner"]]> ∅));
     output := Some PNone;
     observations := None |}.

(** A trace whose input lists a message that is plain text. *)
Definition text_message_trace : trace :=
  {| id := "t-2";
     name := Some "Query: anything";
     input := Some (PDict (<["messages" := PList [PStr "anything"]]> ∅));
     output := Some PNone;
     observations := None |}.

Definition named_trace (trace_id trace_name : string) : trace :=
  {| id := trace_id;
     name := Some trace_name;
     input := None;
     output := None;
     observations := None |}.

Definition sample_item (trace_id response : string) : option item :=
  Some {| query := PStr "dinner idea";
          dietary_restriction := PStr "vegetarian";
          response := PStr response;
          trace_id := trace_id |}.

(** Twelve extracted items, two of them with an empty response. *)
Definition twelve_items : list (option item) :=
  [sample_item "t-01" "r1"; sample_item "t-02" "r2"; sample_item "t-03" "";
   sample_item "t-04" "r4"; sample_item "t-05" "r5"; sample_item "t-06" "r6";
   sample_item "t-07" "r7"; sample_item "t-08" ""; sample_item "t-09" "r9";
   sample_item "t-10" "r10"; sample_item "t-11" "r11"; sample_item "t-12" "r12"].

(** *** The rest of the script: preview, [main] and the entry point *)

(** [v[:n]]: strings and lists are cut; a dict refuses the slice (with
    [TypeError] up to Python 3.11, with [KeyError] from 3.12 on) and the
    other values are not subscriptable. *)
Definition slice_to (v : pyval) (n : nat) : result pyval :=
  match v with
  | PStr s => Ok (PStr (substring 0 n s))
  | PList l => Ok (PList (take n l))
  | PDict _ => Raise (TypeError "unhashable type: 'slice'")
  | _ => Raise (TypeError ("'" +:+ type_name v +:+ "' object is not subscriptable"))
  end.

(** What [show_dataset_preview], [main] and the entry point print.  A line
    is logged as it is: what the terminal library makes of the markup in it
    is not modelled. *)
Inductive main_msg : Type :=
| MsgTitle
| MsgRule50
| MsgNoDemoTraces
| MsgExtracting
| MsgExtracted (n : nat)
| MsgNoValidItems
| MsgPreviewHeader
| MsgRule80
| MsgItem (i : nat)
| MsgItemQuery (query60 : pyval)
| MsgItemRestriction (restriction : pyval)
| MsgItemResponse (response100 : pyval)
| MsgItemTraceId (trace_id : string)
| MsgMore (n : nat)
| MsgComplete
| MsgDatasetCreated
| MsgCanExperiment
| MsgCreationFailed
| MsgCreationSucceeded.

(** The world of [main]: the world of the functions it calls, and the
    lines that [main], the preview and the entry point print themselves
    (kept apart from the lines of the functions they call). *)
Record session : Type := {
  inner : world;
  screen : list main_msg
}.

Definition show (m : main_msg) : M session () := λ s,
  (Ok (), {| inner := inner s; screen := screen s ++ [m] |}).

(** A function of the script run from [main]. *)
Definition within {A} (c : M world A) : M session A := λ s,
  match c (inner s) with
  | (r, w') => (r, {| inner := w'; screen := screen s |})
  end.

(** [for i, item in enumerate(valid_items[:3], 1)] *)
Fixpoint preview_loop (i : nat) (items : list (option item)) : M session () :=
  match items with
  | [] => mret ()
  | item :: rest =>
      match item with
      | Some it =>
          show (MsgItem i) ;;
          query60 ← lift (slice_to (query it) 60);
          show (MsgItemQuery query60) ;;
          show (MsgItemRestriction (dietary_restriction it)) ;;
          response100 ← lift (slice_to (response it) 100);
          show (MsgItemResponse response100) ;;
          show (MsgItemTraceId (trace_id it)) ;;
          preview_loop (S i) rest
      | None =>
          show (MsgItem i) ;;
          lift (Raise (TypeError "'NoneType' object is not subscriptable"))
      end
  end.

Definition show_dataset_preview (dataset_items : list (option item))
    : M session () :=
  show MsgPreviewHeader ;;
  show MsgRule80 ;;
  let valid_items := filter (λ i, valid i = true) dataset_items in
  preview_loop 1 (take 3 valid_items) ;;
  if Nat.ltb 3 (length valid_items)
  then show (MsgMore (length valid_items - 3))
  else mret ().

Section Pipeline.

Variable langfuse : platform.

(** [for trace in traces] of [main]. *)
Fixpoint extract_loop (traces : list trace) (dataset_items : list (option item))
    : M world (list (option item)) :=
  match traces with
  | [] => mret dataset_items
  | trace :: rest =>
      item ← extract_trace_data langfuse trace;
      extract_loop rest (dataset_items ++ [item])
  end.

Definition main : M session bool :=
  show MsgTitle ;;
  show MsgRule50 ;;
  traces ← within (get_demo_traces langfuse);
  match traces with
  | [] => show MsgNoDemoTraces ;; mret false
  | _ :: _ =>
      show MsgExtracting ;;
      dataset_items ← within (extract_loop traces []);
      let valid_items := filter (λ i, valid i = true) dataset_items in
      show (MsgExtracted (length valid_items)) ;;
      if Nat.eqb (length valid_items) 0 then
        show MsgNoValidItems ;; mret false
      else
        show_dataset_preview dataset_items ;;
        dataset ← within (create_langfuse_dataset langfuse valid_items);
        match dataset with
        | None => mret false
        | Some _ =>
            show MsgComplete ;;
            show MsgDatasetCreated ;;
            show MsgCanExperiment ;;
            mret true
        end
  end.

(** The [__main__] block; the value is the exit status of the process. *)
Definition script : M session Z :=
  success ← main;
  if negb success then show MsgCreationFailed ;; mret 1
  else show MsgCreationSucceeded ;; mret 0.

End Pipeline.

(** *** More vocabulary *)

(** The call asks the platform to store something. *)
Definition creates (c : api_call) : bool :=
  match c with
  | CallCreateDataset _ _ | CallCreateDatasetItem _ => true
  | _ => false
  end.

(** The calls that reading the metadata of a trace makes, after the
    history [h]. *)
Definition observation_calls (langfuse : platform) (trace : trace)
    (h : list api_call) : list api_call :=
  match observations trace with
  | Some (obs_id :: _) =>
      if String.eqb obs_id "" then []
      else CallLangfuse ::
           match new_client langfuse h with
           | Ok _ => [CallGetObservation obs_id]
           | Raise _ => []
           end
  | Some [] | None => []
  end.


(** More sample inputs. *)

(** A trace of the recipe bot with an answer and one observation. *)
Definition observed_trace : trace :=
  {| id := "t-3";
     name := Some "Query: I need a gluten-free dinner";
     input := Some (PDict (<["messages" :=
                PList [user_message "I need a GLUTEN-free dinner"]]> ∅));
     output := Some (PDict (<["content" := PStr "Try lentil soup"]> ∅));
     observations := Some ["obs-1"; "obs-2"] |}.

(** A trace whose user message has no content ([None]). *)
Definition null_content_trace : trace :=
  {| id := "t-4";
     name := Some "Query: (tool call)";
     input := Some (PDict (<["messages" :=
                PList [PDict (<["role" := PStr "user"]>
                              (<["content" := PNone]> ∅))]]> ∅));
     output := Some (PDict (<["content" := PStr "Try lentil soup"]> ∅));
     observations := None |}.

(** A platform that answers every call; its observations carry the
    restriction "vegan" and it has recorded the traces [recorded]. *)
Definition demo_platform (recorded : list trace) : platform :=
  {| new_client := λ _, Ok ();
     fetch_traces := λ _ _ _, Ok recorded;
     get_observation := λ _ _,
       Ok {| metadata :=
               Some (PDict (<["dietary_restriction" := PStr "vegan"]> ∅)) |};
     create_dataset := λ _ name _, Ok {| dataset_name := name; dataset_id := "ds-1" |};
     create_dataset_item := λ _ _, Ok () |}.

(** A platform that stores the dataset and then refuses the item of the
    trace "t-04". *)
Definition picky_platform : platform :=
  {| new_client := λ _, Ok ();
     fetch_traces := λ _ _ _, Ok [];
     get_observation := λ _ _, Ok {| metadata := None |};
     create_dataset := λ _ name _, Ok {| dataset_name := name; dataset_id := "ds-1" |};
     create_dataset_item := λ _ di,
       match di_metadata di with
       | PDict md =>
           match md !! "source_trace_id" with
           | Some v => if eq_str v "t-04" then Raise (OtherError "Bad Request")
                       else Ok ()
           | None => Ok ()
           end
       | _ => Ok ()
       end |}.

Definition fresh_session : session := {| inner := fresh_world; screen := [] |}.

(** The record that [null_content_trace] yields. *)
Definition null_query_item : item :=
  {| query := PNone;
     dietary_restriction := PStr "";
     response := PStr "Try lentil soup";
     trace_id := "t-4" |}.

End CreateDataset.

(** * Running computations *)

Lemma bind_ok {W A B} (c : M W A) (k : A → M W B) w a w' :
  c w = (Ok a, w') → (c ≫= k) w = k a w'.
Proof. intros H. unfold mbind, M_bind. rewrite H. reflexivity. Qed.

Lemma bind_raise {W A B} (c : M W A) (k : A → M W B) w e w' :
  c w = (Raise e, w') → (c ≫= k) w = (Raise e, w').
Proof. intros H. unfold mbind, M_bind. rewrite H. reflexivity. Qed.

Lemma try_ok {W A} (c : M W A) (h : exn → M W A) w a w' :
  c w = (Ok a, w') → try_except c h w = (Ok a, w').
Proof. intros H. unfold try_except. rewrite H. reflexivity. Qed.

Lemma try_raise {W A} (c : M W A) (h : exn → M W A) w e w' :
  c w = (Raise e, w') → try_except c h w = h e w'.
Proof. intros H. unfold try_except. rewrite H. reflexivity. Qed.

(** * Properties of scripts/generate_traces.py *)
Module GenerateTracesSpec.
Import GenerateTraces.

(** ** Running the monad *)



Section Agent.
Variable agent : list (pyval * pyval) → pyval → pyval → result pyval.

Lemma generate_trace_eq qd w :
  generate_trace agent qd w =
    (Ok match rbind (answer agent w qd) (λ rm,
                rbind (iter rm) (λ msgs, assistant_loop msgs (PStr ""))) with
        | Ok resp => succeeded qd resp
        | Raise e => failed_with qd e
        end, called w qd).
Proof.
  unfold generate_trace, try_except, answer, mbind, M_bind, get_agent_response, lift.
  cbn.
  destruct (agent _ _ _) as [rm|e]; cbn; [|reflexivity].
  destruct (iter rm) as [msgs|e]; cbn; [|reflexivity].
  destruct (assistant_loop msgs _) as [resp|e]; reflexivity.
Qed.





(** ** One generation request *)


(** The scan stops with [KeyError] at a message without a role when no
    earlier message answers for the assistant. *)
Lemma assistant_loop_roleless pre d rest dflt :
  Forall (λ m, is_dict m = true ∧ has_role "assistant" m = false) pre →
  d !! "role" = None →
  assistant_loop (pre ++ PDict d :: rest) dflt = Raise (KeyError "role").
Proof.
  intros Hpre Hd. induction Hpre as [|m pre [Hm Hr] _ IH].
  - cbn. rewrite Hd. reflexivity.
  - destruct m as [| | | | |dm]; try discriminate.
    cbn in Hr |- *. destruct (dm !! "role") as [v|]; cbn; [|reflexivity].
    rewrite Hr. apply IH.
Qed.

(** C2, amended: for every generation request, when the agent raises an
    exception, [generate_trace] catches it and returns a record with
    success=false, response="" and an error string equal to the text of
    the exception, which is not empty whenever that text is not empty; the
    exception does not reach the caller. *)
Theorem generate_trace_agent_raises qd w e :
  answer agent w qd = Raise e →
  ∃ r, generate_trace agent qd w = (Ok r, called w qd)
       ∧ tr_success r = false
       ∧ tr_response r = PStr ""
       ∧ tr_error r = Some (exn_str e)
       ∧ (exn_str e ≠ "" → tr_error r ≠ Some "").
Proof.
  intros Hraise. rewrite generate_trace_eq, Hraise. cbn.
  eexists; split; [reflexivity|]. cbn. repeat split. congruence.
Qed.


(** C10: when the agent returns a list that holds, before any
    assistant-role message, a message dict without the "role" key, the
    role lookup of [generate_trace] raises [KeyError] and the catch-all
    handler turns it into a returned record with success=false and
    response="". *)
Theorem generate_trace_missing_role qd w pre d rest :
  answer agent w qd = Ok (PList (pre ++ PDict d :: rest)) →
  Forall (λ m, is_dict m = true ∧ has_role "assistant" m = false) pre →
  d !! "role" = None →
  assistant_loop (pre ++ PDict d :: rest) (PStr "") = Raise (KeyError "role")
  ∧ ∃ r, generate_trace agent qd w = (Ok r, called w qd)
         ∧ tr_success r = false
         ∧ tr_response r = PStr ""
         ∧ tr_error r = Some (exn_str (KeyError "role")).
Proof.
  intros Hanswer Hpre Hd.
  pose proof (assistant_loop_roleless pre d rest (PStr "") Hpre Hd) as Hloop.
  split; [exact Hloop|].
  rewrite generate_trace_eq, Hanswer. cbn. rewrite Hloop.
  eexists; split; [reflexivity|]. repeat split.
Qed.

(** ** The orchestration *)

Lemma build_generations_eq demo_queries : ∀ acc,
  build_generations demo_queries acc
  = acc ++ (demo_queries ≫= λ q, [numbered 1 q; numbered 2 q; numbered 3 q]).
Proof.
  induction demo_queries as [|q qs IH]; intros acc; cbn.
  - rewrite app_nil_r. reflexivity.
  - rewrite IH, <- app_assoc. reflexivity.
Qed.


(** ** Selection of the demo queries *)

Lemma select_loop_eq df ids : ∀ acc,
  select_loop df ids acc
  = acc ++ omap (λ i, query_of_row <$> head (rows_with_id df i)) ids.
Proof.
  induction ids as [|i ids IH]; intros acc; cbn.
  - rewrite app_nil_r. reflexivity.
  - destruct (rows_with_id df i) as [|r rs]; cbn; [apply IH|].
    rewrite IH, <- app_assoc. reflexivity.
Qed.

Lemma rows_with_id_nil df i :
  rows_with_id df i = [] → ¬ present df i.
Proof.
  intros Hnil Hin. unfold present in Hin.
  apply list_elem_of_fmap in Hin as (r & -> & Hr).
  apply (filter_nil_not_elem_of _ _ r Hnil); [reflexivity|exact Hr].
Qed.

Lemma rows_with_id_head df i r rs :
  rows_with_id df i = r :: rs → row_id r = i ∧ r ∈ df.
Proof.
  intros Hrows.
  assert (Hin : r ∈ rows_with_id df i) by (rewrite Hrows; left).
  apply list_elem_of_filter in Hin. exact Hin.
Qed.

Lemma selected_ids_eq df (ids : list Z) :
  id <$> omap (λ i, query_of_row <$> head (rows_with_id df i)) ids
  = filter (λ i, i ∈ row_id <$> df) ids.
Proof.
  induction ids as [|i ids IH]; [reflexivity|].
  rewrite filter_cons, <- IH. cbn.
  destruct (rows_with_id df i) as [|r rs] eqn:Hrows; cbn.
  - apply rows_with_id_nil in Hrows. unfold present in Hrows.
    destruct (decide (i ∈ row_id <$> df)); [contradiction|reflexivity].
  - destruct (rows_with_id_head _ _ _ _ Hrows) as [Hid Hin].
    destruct (decide (i ∈ row_id <$> df)) as [_|Hni]; [rewrite Hid; reflexivity|].
    exfalso. apply Hni, list_elem_of_fmap. exists r. auto.
Qed.

Lemma selected_rows df (ids : list Z) :
  Forall (λ q, ∃ r, r ∈ df ∧ q = query_of_row r)
    (omap (λ i, query_of_row <$> head (rows_with_id df i)) ids).
Proof.
  induction ids as [|i ids IH]; [constructor|].
  cbn. destruct (rows_with_id df i) as [|r rs] eqn:Hrows; cbn; [exact IH|].
  constructor; [|exact IH].
  exists r. split; [|reflexivity]. eapply rows_with_id_head, Hrows.
Qed.

Lemma length_filter_all {A} (P : A → Prop) `{∀ x, Decision (P x)} (l : list A) :
  length (filter P l) = length l ↔ Forall P l.
Proof.
  induction l as [|x l IH]; [split; [constructor|reflexivity]|].
  rewrite filter_cons. destruct (decide (P x)) as [HP|HP]; cbn.
  - rewrite Forall_cons. split.
    + intros Hlen. split; [exact HP|]. apply IH. lia.
    + intros [_ Hall]. f_equal. apply IH, Hall.
  - pose proof (length_filter P l). split; [lia|].
    intros Hall. apply Forall_cons in Hall as [? _]. contradiction.
Qed.

(** C5: [select_demo_queries] returns, without raising, one record per
    identifier of 26, 43, 46, 48 that is present in the catalog, each taken
    from a row of the catalog: exactly 4 records when all four are present
    and strictly fewer when one is missing. *)
Theorem select_demo_queries_present df :
  id <$> select_demo_queries df = filter (λ i, i ∈ row_id <$> df) selected_ids
  ∧ Forall (λ q, ∃ r, r ∈ df ∧ q = query_of_row r) (select_demo_queries df)
  ∧ (length (select_demo_queries df) = 4%nat
     ↔ ∀ i, i ∈ selected_ids → present df i)
  ∧ ((length (select_demo_queries df) < 4)%nat
     ↔ ∃ i, i ∈ selected_ids ∧ ¬ present df i).
Proof.
  unfold select_demo_queries. rewrite select_loop_eq, app_nil_l.
  pose proof (selected_ids_eq df selected_ids) as Hids.
  assert (Hlen : length (omap (λ i, query_of_row <$> head (rows_with_id df i))
                           selected_ids)
                 = length (filter (λ i, i ∈ row_id <$> df) selected_ids))
    by (rewrite <- Hids, length_fmap; reflexivity).
  pose proof (length_filter_all (λ i, i ∈ row_id <$> df) selected_ids) as Hall.
  pose proof (length_filter (λ i, i ∈ row_id <$> df) selected_ids) as Hle.
  change (length selected_ids) with 4%nat in Hall, Hle.
  rewrite Forall_forall in Hall.
  split; [exact Hids|]. split; [apply selected_rows|]. rewrite Hlen. split.
  - exact Hall.
  - split.
    + intros Hlt.
      destruct (decide (Exists (λ i, ¬ i ∈ row_id <$> df) selected_ids))
        as [Hex|Hnex].
      * apply Exists_exists in Hex as (i & Hi & Hni). exists i. auto.
      * exfalso. apply not_Exists_Forall in Hnex; [|intros i; apply _].
        assert (length (filter (λ i, i ∈ row_id <$> df) selected_ids) = 4%nat).
        { apply Hall. intros i Hi. rewrite Forall_forall in Hnex.
          specialize (Hnex i Hi). cbn in Hnex.
          destruct (decide (i ∈ row_id <$> df)); [assumption|contradiction]. }
        lia.
    + intros (i & Hi & Hni).
      destruct (decide (length (filter (λ i, i ∈ row_id <$> df) selected_ids)
                        = 4%nat)) as [Heq|Hne]; [|lia].
      exfalso. apply Hni. apply Hall; assumption.
Qed.

End Agent.

(** ** The run against the stub agent *)

Lemma stub_trace qd w :
  generate_trace stub_agent qd w
  = (Ok (succeeded qd (PStr "Here's a recipe")), called w qd).
Proof. rewrite generate_trace_eq. reflexivity. Qed.

Lemma stub_loop gens : ∀ acc w,
  ∃ w', generate_loop stub_agent gens acc w
        = (Ok (acc ++ ((λ g, succeeded g (PStr "Here's a recipe")) <$> gens)), w')
        ∧ agent_calls w' = agent_calls w ++ (agent_call <$> gens).
Proof.
  induction gens as [|g gens IH]; intros acc w; cbn.
  - exists w. rewrite !app_nil_r. auto.
  - rewrite (bind_ok _ _ _ _ _ (stub_trace g w)).
    destruct (IH (acc ++ [succeeded g (PStr "Here's a recipe")]) (called w g))
      as (w' & -> & Hcalls).
    exists w'. rewrite <- app_assoc. split; [reflexivity|].
    rewrite Hcalls. cbn. rewrite <- app_assoc. reflexivity.
Qed.

Lemma successful_all (gens : list query_data) resp :
  successful ((λ g, succeeded g resp) <$> gens) = (λ g, succeeded g resp) <$> gens
  ∧ failed ((λ g, succeeded g resp) <$> gens) = [].
Proof.
  unfold successful, failed.
  induction gens as [|g gens [IHs IHf]]; [split; reflexivity|].
  rewrite fmap_cons.
  rewrite (filter_cons_True (λ t, tr_success t = true)) by reflexivity.
  rewrite (filter_cons_False (λ t, tr_success t ≠ true)) by (cbn; congruence).
  rewrite IHs. auto.
Qed.

(** C7: with exactly 4 selected demo queries the orchestration builds 12
    generation requests, 3 per query numbered 1 to 3, and sends them to the
    agent one after the other in that order; against the stub that always
    answers with one assistant message the run yields 12 successes, 0
    failures, and the restrictions covered are those of the 4 queries. *)
Theorem four_queries_twelve_traces (demo_queries : list query_data) w :
  length demo_queries = 4%nat →
  ∃ traces w',
    length (build_generations demo_queries []) = 12%nat
    ∧ build_generations demo_queries []
      = demo_queries ≫= (λ q, [numbered 1 q; numbered 2 q; numbered 3 q])
    ∧ generate_loop stub_agent (build_generations demo_queries []) [] w
      = (Ok traces, w')
    ∧ agent_calls w'
      = agent_calls w ++ (agent_call <$> build_generations demo_queries [])
    ∧ length (successful traces) = 12%nat
    ∧ length (failed traces) = 0%nat
    ∧ covered (successful traces)
      = list_to_set (dietary_restriction <$> demo_queries).
Proof.
  intros Hlen.
  destruct demo_queries as [|q1 [|q2 [|q3 [|q4 [|q5 qs]]]]]; try discriminate.
  destruct (stub_loop (build_generations [q1; q2; q3; q4] []) [] w)
    as (w' & Hloop & Hcalls).
  rewrite app_nil_l in Hloop.
  eexists _, w'.
  split; [reflexivity|].
  split; [apply build_generations_eq|].
  split; [exact Hloop|].
  split; [exact Hcalls|].
  destruct (successful_all (build_generations [q1; q2; q3; q4] [])
              (PStr "Here's a recipe")) as [-> ->].
  split; [reflexivity|]. split; [reflexivity|].
  unfold covered. cbn. apply set_eq. intros x.
  rewrite !elem_of_union, !elem_of_singleton. tauto.
Qed.

Lemma four_queries_twelve_traces_witness :
  length (select_demo_queries sample_catalog) = 4%nat
  ∧ ∃ traces w',
      length (build_generations (select_demo_queries sample_catalog) []) = 12%nat
      ∧ build_generations (select_demo_queries sample_catalog) []
        = select_demo_queries sample_catalog
            ≫= (λ q, [numbered 1 q; numbered 2 q; numbered 3 q])
      ∧ generate_loop stub_agent
          (build_generations (select_demo_queries sample_catalog) []) []
          fresh_world = (Ok traces, w')
      ∧ agent_calls w'
        = agent_calls fresh_world
          ++ (agent_call <$> build_generations (select_demo_queries sample_catalog) [])
      ∧ length (successful traces) = 12%nat
      ∧ length (failed traces) = 0%nat
      ∧ covered (successful traces)
        = list_to_set (dietary_restriction <$> select_demo_queries sample_catalog).
Proof.
  split; [reflexivity|].
  apply (four_queries_twelve_traces (select_demo_queries sample_catalog)
           fresh_world).
  reflexivity.
Defined.

(** ** Concrete runs *)

Lemma generate_trace_agent_raises_witness :
  answer timeout_agent fresh_world sample_query
  = Raise (OtherError "Request timed out.")
  ∧ ∃ r, generate_trace timeout_agent sample_query fresh_world
           = (Ok r, called fresh_world sample_query)
         ∧ tr_success r = false
         ∧ tr_response r = PStr ""
         ∧ tr_error r = Some (exn_str (OtherError "Request timed out."))
         ∧ (exn_str (OtherError "Request timed out.") ≠ ""
            → tr_error r ≠ Some "").
Proof.
  split; [reflexivity|].
  apply (generate_trace_agent_raises timeout_agent sample_query fresh_world
           (OtherError "Request timed out.")).
  reflexivity.
Defined.

(** The agent raises an exception that has no message: the failure record
    carries an empty error string. *)
Lemma generate_trace_empty_error_text :
  answer silent_failure_agent fresh_world sample_query = Raise (OtherError "")
  ∧ fst (generate_trace silent_failure_agent sample_query fresh_world)
    = Ok {| tr_query_id := 48;
            tr_query := "I need a gluten-free dinner";
            tr_dietary_restriction := "gluten-free";
            tr_response := PStr "";
            tr_success := false;
            tr_error := Some "" |}.
Proof. split; reflexivity. Qed.



Lemma generate_trace_missing_role_witness :
  answer sloppy_agent fresh_world sample_query
  = Ok (PList ([message "system" "You are a chef"]
               ++ PDict (<["content" := PStr "thinking"]> ∅)
               :: [message "assistant" "Try lentil soup"]))
  ∧ ∃ r, generate_trace sloppy_agent sample_query fresh_world
         = (Ok r, called fresh_world sample_query)
         ∧ tr_success r = false
         ∧ tr_response r = PStr ""
         ∧ tr_error r = Some "'role'".
Proof.
  split; [reflexivity|].
  apply (generate_trace_missing_role sloppy_agent sample_query fresh_world
           [message "system" "You are a chef"]
           (<["content" := PStr "thinking"]> ∅)
           [message "assistant" "Try lentil soup"]).
  - reflexivity.
  - repeat constructor.
  - reflexivity.
Defined.

End GenerateTracesSpec.

(** * Properties of scripts/create_dataset.py *)
Module CreateDatasetSpec.
Import CreateDataset.

Lemma print_eq m w :
  print m w = (Ok (), {| calls := calls w; console := console w ++ [m] |}).
Proof. reflexivity. Qed.

Lemma call_eq {A} c (answer : list api_call → result A) w :
  call c answer w
  = (answer (calls w), {| calls := calls w ++ [c]; console := console w |}).
Proof. reflexivity. Qed.

(** ** Selection of the demo traces *)




Lemma demo_loop_take data : ∀ acc,
  (length acc < 12)%nat →
  demo_loop data acc
  = take 12 (acc ++ filter (λ t, is_demo_trace t = true) data).
Proof.
  induction data as [|t data IH]; intros acc Hlt; cbn [demo_loop].
  - rewrite filter_nil, app_nil_r, take_ge by lia. reflexivity.
  - rewrite filter_cons. destruct (is_demo_trace t) eqn:Hdemo.
    + destruct (decide (true = true)) as [_|Hne]; [|congruence].
      destruct (Nat.leb 12 (length (acc ++ [t]))) eqn:Hfull.
      * apply Nat.leb_le in Hfull. rewrite length_app in Hfull. cbn in Hfull.
        symmetry.
        change (acc ++ t :: ?k) with (acc ++ [t] ++ k).
        rewrite app_assoc. apply take_app_length'.
        rewrite length_app. cbn. lia.
      * apply Nat.leb_gt in Hfull. rewrite IH by exact Hfull.
        rewrite <- app_assoc. reflexivity.
    + destruct (decide (false = true)) as [Heq|_]; [congruence|].
      apply IH, Hlt.
Qed.

Section Platform.
Variable langfuse : platform.


(** ** Extraction of one trace *)

Lemma extract_response_not_dict trace :
  output_is_dict trace = false → extract_response trace = Ok (PStr "").
Proof.
  unfold output_is_dict, extract_response.
  destruct (output trace) as [out|]; [|reflexivity].
  intros ->. rewrite andb_false_r. reflexivity.
Qed.

Lemma extract_response_returns trace :
  ∃ response, extract_response trace = Ok response.
Proof.
  unfold extract_response. destruct (output trace) as [out|]; [|eauto].
  destruct out as [| | | | |d]; try (rewrite andb_false_r; eauto).
  destruct (truthy (PDict d) && is_dict (PDict d)); cbn; eauto.
Qed.

(** Reading the metadata never raises: the inner handler swallows it. *)
Lemma metadata_restriction_returns trace w :
  ∃ restriction w',
    metadata_restriction langfuse trace w = (Ok restriction, w')
    ∧ console w' = console w.
Proof.
  unfold metadata_restriction.
  destruct (observations trace) as [[|obs_id obs]|]; try (eexists _, _; split; reflexivity).
  destruct (negb (String.eqb obs_id "")); [|eexists _, _; split; reflexivity].
  unfold try_except, Langfuse, mbind, M_bind, call, lift, mret, M_ret. cbn.
  destruct (new_client langfuse (calls w)) as [[]|e];
    [|eexists _, _; split; reflexivity].
  cbn.
  destruct (get_observation langfuse _ obs_id) as [o|e];
    [|eexists _, _; split; reflexivity].
  destruct (metadata o) as [md|]; [|eexists _, _; split; reflexivity].
  destruct (truthy md); [|eexists _, _; split; reflexivity].
  destruct (get md _ _); eexists _, _; split; reflexivity.
Qed.

(** The steps of [extract_trace_data], one after the other. *)
Lemma extract_trace_data_eq trace w q r dr w1 :
  extract_query trace = Ok q →
  extract_response trace = Ok r →
  metadata_restriction langfuse trace w = (Ok dr, w1) →
  extract_trace_data langfuse trace w
  = match infer_restriction dr q with
    | Ok dr' =>
        (Ok (Some {| query := q; dietary_restriction := dr';
                     response := r; trace_id := id trace |}), w1)
    | Raise e =>
        (Ok None,
         {| calls := calls w1;
            console := console w1 ++ [MsgExtractError (id trace) (exn_str e)] |})
    end.
Proof.
  intros Hq Hr Hdr. unfold extract_trace_data, try_except, mbind, M_bind, lift.
  rewrite Hq, Hr, Hdr. destruct (infer_restriction dr q); reflexivity.
Qed.

Lemma extract_trace_data_query_raises trace w e :
  extract_query trace = Raise e →
  extract_trace_data langfuse trace w
  = (Ok None,
     {| calls := calls w;
        console := console w ++ [MsgExtractError (id trace) (exn_str e)] |}).
Proof.
  intros Hq. unfold extract_trace_data, try_except, mbind, M_bind, lift.
  rewrite Hq. reflexivity.
Qed.

Lemma infer_restriction_text q :
  q ≠ "" →
  infer_restriction (PStr "") (PStr q)
  = Ok (PStr (keyword_restriction (str_lower q))).
Proof.
  intros Hq. unfold infer_restriction. cbn.
  destruct (String.eqb_spec q "") as [->|_]; [contradiction|]. cbn.
  unfold keyword_restriction. cbn.
  repeat (destruct (contains _ (str_lower q)); [reflexivity|]).
  reflexivity.
Qed.

(** C4: for a trace whose observation metadata leaves the restriction
    unset and whose extracted query is a non-empty string,
    [extract_trace_data] sets the restriction by the first keyword of the
    ordered table (gluten, sugar-free, vegetarian, paleo) that occurs in the
    lowercased query, and to the empty string when none occurs. *)
Theorem extract_trace_data_keyword_fallback trace w q :
  fst (metadata_restriction langfuse trace w) = Ok (PStr "") →
  extract_query trace = Ok (PStr q) →
  q ≠ "" →
  ∃ i w',
    extract_trace_data langfuse trace w = (Ok (Some i), w')
    ∧ query i = PStr q
    ∧ dietary_restriction i = PStr (keyword_restriction (str_lower q)).
Proof.
  intros Hmeta Hquery Hq.
  destruct (extract_response_returns trace) as [r Hr].
  destruct (metadata_restriction langfuse trace w) as [dr w1] eqn:Hdr.
  cbn in Hmeta. subst dr.
  rewrite (extract_trace_data_eq _ _ _ _ _ _ Hquery Hr Hdr).
  rewrite (infer_restriction_text _ Hq).
  eexists _, _. split; [reflexivity|]. split; reflexivity.
Qed.

(** C8, amended: for every trace whose output is not a dict,
    [extract_trace_data] does not raise and every record it yields has
    response=""; it yields a record whenever the query read from the input
    is a string, and yields [None] when reading the query raises. *)
Theorem extract_trace_data_output_not_dict trace w :
  output_is_dict trace = false →
  ∃ extracted w',
    extract_trace_data langfuse trace w = (Ok extracted, w')
    ∧ (∀ i, extracted = Some i → response i = PStr "")
    ∧ match extract_query trace with
      | Ok (PStr q) => ∃ i, extracted = Some i ∧ query i = PStr q
      | Ok q => extracted = None → truthy q = true
      | Raise _ => extracted = None
      end.
Proof.
  intros Hout. pose proof (extract_response_not_dict _ Hout) as Hr.
  destruct (extract_query trace) as [q|e] eqn:Hq.
  - destruct (metadata_restriction_returns trace w) as (dr & w1 & Hdr & _).
    rewrite (extract_trace_data_eq _ _ _ _ _ _ Hq Hr Hdr).
    unfold infer_restriction.
    destruct (negb (truthy dr) && truthy q) eqn:Hcond.
    + apply andb_true_iff in Hcond as [_ Htruthy].
      destruct q; cbn [lower rbind];
        eexists _, _; (split; [reflexivity|]);
        (split; [intros i [= <-]; reflexivity|]);
        try (intros _; exact Htruthy); eauto; discriminate.
    + eexists _, _. split; [reflexivity|].
      split; [intros i [= <-]; reflexivity|].
      destruct q; eauto; discriminate.
  - rewrite (extract_trace_data_query_raises _ _ _ Hq).
    eexists _, _. split; [reflexivity|]. split; [discriminate|reflexivity].
Qed.

(** ** Upload of the dataset *)






End Platform.

(** ** Concrete runs *)

(** Fourteen traces with the prefix and one without: the first twelve with
    the prefix are kept. *)
Example demo_loop_fourteen :
  demo_loop (replicate 5 (named_trace "t" "Query: soup")
             ++ [named_trace "u" "Chat: soup"]
             ++ replicate 9 (named_trace "t" "Query: soup")) []
  = replicate 12 (named_trace "t" "Query: soup").
Proof. reflexivity. Qed.

Example get_demo_traces_offline :
  fst (get_demo_traces offline_platform fresh_world) = Ok [].
Proof. reflexivity. Qed.




Lemma extract_trace_data_keyword_fallback_witness :
  fst (metadata_restriction quiet_platform gluten_trace fresh_world) = Ok (PStr "")
  ∧ extract_query gluten_trace = Ok (PStr "I need a gluten-free dinner")
  ∧ keyword_restriction (str_lower "I need a gluten-free dinner") = "gluten-free"
  ∧ ∃ i w',
      extract_trace_data quiet_platform gluten_trace fresh_world = (Ok (Some i), w')
      ∧ query i = PStr "I need a gluten-free dinner"
      ∧ dietary_restriction i
        = PStr (keyword_restriction (str_lower "I need a gluten-free dinner")).
Proof.
  split; [reflexivity|]. split; [reflexivity|]. split; [reflexivity|].
  apply (extract_trace_data_keyword_fallback quiet_platform gluten_trace
           fresh_world "I need a gluten-free dinner").
  - reflexivity.
  - reflexivity.
  - discriminate.
Defined.

Lemma extract_trace_data_output_not_dict_witness :
  output_is_dict gluten_trace = false
  ∧ ∃ extracted w',
      extract_trace_data quiet_platform gluten_trace fresh_world
      = (Ok extracted, w')
      ∧ (∀ i, extracted = Some i → response i = PStr "")
      ∧ match extract_query gluten_trace with
        | Ok (PStr q) => ∃ i, extracted = Some i ∧ query i = PStr q
        | Ok q => extracted = None → truthy q = true
        | Raise _ => extracted = None
        end.
Proof.
  split; [reflexivity|].
  apply (extract_trace_data_output_not_dict quiet_platform gluten_trace
           fresh_world).
  reflexivity.
Defined.

(** The output of the trace is [None] and its input lists a message that is
    plain text: reading the role of that message raises, and the trace
    yields no record. *)
Lemma extract_trace_data_yields_no_record :
  output_is_dict text_message_trace = false
  ∧ extract_query text_message_trace
    = Raise (AttributeError "'str' object has no attribute 'get'")
  ∧ fst (extract_trace_data quiet_platform text_message_trace fresh_world)
    = Ok None.
Proof. repeat split. Qed.

End CreateDatasetSpec.

(** * Further properties of scripts/generate_traces.py *)
Module GenerateTracesMore.
Import GenerateTraces GenerateTracesSpec.

Section Agent.
Variable agent : list (pyval * pyval) → pyval → pyval → result pyval.

(** ** One request *)

Lemma generate_trace_run qd w :
  ∃ r, generate_trace agent qd w = (Ok r, called w qd)
       ∧ tr_query_id r = id qd
       ∧ tr_query r = query qd
       ∧ tr_dietary_restriction r = dietary_restriction qd
       ∧ (tr_error r = None ↔ tr_success r = true)
       ∧ (tr_success r = false → tr_response r = PStr "").
Proof.
  rewrite generate_trace_eq.
  destruct (rbind _ _) as [resp|e]; eexists; (split; [reflexivity|]); cbn;
    repeat split; congruence.
Qed.

(** Whatever the agent does, [generate_trace] returns a record after
    exactly one call to the agent and without printing; the record names
    the request it answers, carries an error exactly when it is a failure,
    and a failure has an empty response. *)
Theorem generate_trace_outcome qd w :
  ∃ r, generate_trace agent qd w = (Ok r, called w qd)
       ∧ tr_query_id r = id qd
       ∧ tr_query r = query qd
       ∧ tr_dietary_restriction r = dietary_restriction qd
       ∧ (tr_error r = None ↔ tr_success r = true)
       ∧ (tr_success r = false → tr_response r = PStr "").
Proof.
  rewrite generate_trace_eq.
  destruct (rbind _ _) as [resp|e]; eexists; (split; [reflexivity|]); cbn;
    repeat split; congruence.
Qed.

(** The messages that follow the first assistant message are never looked
    at: whatever they are, the response is the content of that message. *)
Theorem generate_trace_ignores_rest qd w pre m rest content :
  answer agent w qd = Ok (PList (pre ++ m :: rest)) →
  Forall (λ x, carries_role x = true ∧ has_role "assistant" x = false) pre →
  has_role "assistant" m = true →
  getitem m "content" = Ok content →
  generate_trace agent qd w = (Ok (succeeded qd content), called w qd).
Proof.
  intros Hanswer Hpre Hm Hcontent.
  rewrite generate_trace_eq, Hanswer. cbn.
  assert (Hloop : assistant_loop (pre ++ m :: rest) (PStr "") = Ok content).
  { clear Hanswer. induction Hpre as [|x pre [Hx Hr] _ IH].
    - destruct m as [| | | | |d]; try discriminate. cbn in Hm |- *.
      destruct (d !! "role") as [v|]; [|discriminate Hm]. cbn. rewrite Hm.
      exact Hcontent.
    - destruct x as [| | | | |dx]; try discriminate. cbn in Hx, Hr |- *.
      apply bool_decide_eq_true in Hx as [v Hv]. rewrite Hv in Hr |- *.
      cbn. rewrite Hr. exact IH. }
  rewrite Hloop. reflexivity.
Qed.


(** ** The loop and [main] *)

Lemma generate_loop_run gens : ∀ acc w,
  ∃ traces w',
    generate_loop agent gens acc w = (Ok (acc ++ traces), w')
    ∧ tr_query_id <$> traces = id <$> gens
    ∧ tr_dietary_restriction <$> traces = dietary_restriction <$> gens
    ∧ Forall (λ t, tr_error t = None ↔ tr_success t = true) traces
    ∧ agent_calls w' = agent_calls w ++ (agent_call <$> gens)
    ∧ console w' = console w.
Proof.
  induction gens as [|g gens IH]; intros acc w; cbn [generate_loop].
  - exists [], w. rewrite !app_nil_r. repeat split; constructor.
  - destruct (generate_trace_run g w) as (r & Hr & Hid & _ & Hdr & Herr & _).
    rewrite (bind_ok _ _ _ _ _ Hr).
    destruct (IH (acc ++ [r]) (called w g))
      as (traces & w' & -> & Hids & Hdrs & Herrs & Hcalls & Hcon).
    exists (r :: traces), w'. rewrite <- app_assoc.
    split; [reflexivity|]. rewrite !fmap_cons, Hids, Hdrs, Hid, Hdr.
    repeat split; try constructor; try assumption.
    rewrite Hcalls. cbn. rewrite <- app_assoc. reflexivity.
Qed.

Lemma successful_failed_length traces :
  (length (successful traces) + length (failed traces))%nat = length traces.
Proof.
  unfold successful, failed. induction traces as [|t ts IH]; [reflexivity|].
  rewrite !filter_cons.
  destruct (decide (tr_success t = true)), (decide (tr_success t ≠ true));
    cbn; try lia; contradiction.
Qed.

(** A failure does not stop the loop: there is one trace per request, in
    the order of the requests, each trace carries an error exactly when it
    failed, the agent has received one call per request in that order, and
    successes and failures add up to the number of requests. *)
Theorem generate_loop_one_trace_per_request gens w :
  ∃ traces w',
    generate_loop agent gens [] w = (Ok traces, w')
    ∧ tr_query_id <$> traces = id <$> gens
    ∧ tr_dietary_restriction <$> traces = dietary_restriction <$> gens
    ∧ Forall (λ t, tr_error t = None ↔ tr_success t = true) traces
    ∧ agent_calls w' = agent_calls w ++ (agent_call <$> gens)
    ∧ (length (successful traces) + length (failed traces))%nat = length gens.
Proof.
  destruct (generate_loop_run gens [] w)
    as (traces & w' & Hloop & Hids & Hdrs & Herrs & Hcalls & _).
  exists traces, w'. repeat (split; [assumption|]).
  rewrite successful_failed_length.
  rewrite <- (length_fmap tr_query_id), Hids, length_fmap. reflexivity.
Qed.

(** The restrictions reported as covered are restrictions of the requests:
    the agent's answers cannot add one. *)
Theorem covered_within_requests gens w :
  ∃ traces w',
    generate_loop agent gens [] w = (Ok traces, w')
    ∧ covered (successful traces) ⊆ list_to_set (dietary_restriction <$> gens).
Proof.
  destruct (generate_loop_run gens [] w)
    as (traces & w' & Hloop & _ & Hdrs & _).
  exists traces, w'. split; [exact Hloop|].
  intros x. unfold covered. rewrite !elem_of_list_to_set, <- Hdrs.
  rewrite !list_elem_of_fmap. intros (t & -> & Ht).
  exists t. split; [reflexivity|].
  unfold successful in Ht. apply list_elem_of_filter in Ht. apply Ht.
Qed.





End Agent.

(** ** Selection *)

Lemma head_filter_first {A} (P : A → Prop) `{∀ x, Decision (P x)} (l : list A) r :
  head (filter P l) = Some r →
  ∃ pre post, l = pre ++ r :: post ∧ P r ∧ Forall (λ x, ¬ P x) pre.
Proof.
  induction l as [|x l IH]; [discriminate|].
  rewrite filter_cons. destruct (decide (P x)) as [HP|HP].
  - intros [= ->]. exists [], l. auto.
  - intros Hhead. destruct (IH Hhead) as (pre & post & -> & Hr & Hpre).
    exists (x :: pre), post. auto.
Qed.

(** The selection has at most one record per identifier, and when several
    rows of the catalog share an identifier the first of them is taken. *)
Theorem select_demo_queries_first_row df :
  NoDup (id <$> select_demo_queries df)
  ∧ Forall (λ q, ∃ pre r post,
                df = pre ++ r :: post
                ∧ q = query_of_row r
                ∧ Forall (λ r', row_id r' ≠ row_id r) pre)
      (select_demo_queries df).
Proof.
  unfold select_demo_queries. rewrite select_loop_eq, app_nil_l. split.
  - rewrite selected_ids_eq. apply NoDup_filter.
    unfold selected_ids. compute_done.
  - generalize selected_ids as ids. induction ids as [|i ids IH]; [constructor|].
    cbn. destruct (head (rows_with_id df i)) as [r|] eqn:Hhead; cbn; [|exact IH].
    constructor; [|exact IH].
    destruct (head_filter_first _ _ _ Hhead) as (pre & post & -> & Hr & Hpre).
    exists pre, r, post. split; [reflexivity|]. split; [reflexivity|].
    cbn in Hr. rewrite Hr. exact Hpre.
Qed.

(** Rows with other identifiers do not matter: the selection is the same
    on the catalog restricted to the rows of the four demo identifiers. *)
Theorem select_demo_queries_other_rows df :
  select_demo_queries (filter (λ r, row_id r ∈ selected_ids) df)
  = select_demo_queries df.
Proof.
  assert (Hrow : ∀ i, i ∈ selected_ids →
            rows_with_id (filter (λ r, row_id r ∈ selected_ids) df) i
            = rows_with_id df i).
  { intros i Hi. unfold rows_with_id.
    apply (list_filter_filter_l (λ r, row_id r = i)
             (λ r, row_id r ∈ selected_ids)).
    intros r <-. exact Hi. }
  unfold select_demo_queries. rewrite !select_loop_eq, !app_nil_l.
  assert (Hrows : ∀ ids : list Z, ids ⊆ selected_ids →
            omap (λ i, query_of_row
                         <$> head (rows_with_id
                                     (filter (λ r, row_id r ∈ selected_ids) df) i))
                 ids
            = omap (λ i, query_of_row <$> head (rows_with_id df i)) ids).
  { induction ids as [|i ids IH]; intros Hsub; [reflexivity|].
    assert (Hi : i ∈ selected_ids) by (apply Hsub; left).
    cbn. rewrite (Hrow i Hi), IH; [reflexivity|].
    intros x Hx. apply Hsub. right. exact Hx. }
  apply Hrows. reflexivity.
Qed.

(** ** Concrete runs *)

Lemma generate_trace_ignores_rest_witness :
  answer trailing_agent fresh_world sample_query
  = Ok (PList ([message "system" "You are a chef"]
               ++ message "assistant" "Try lentil soup"
               :: [PStr "usage: 120 tokens"; PNone]))
  ∧ generate_trace trailing_agent sample_query fresh_world
    = (Ok (succeeded sample_query (PStr "Try lentil soup")),
       called fresh_world sample_query).
Proof.
  split; [reflexivity|].
  apply (generate_trace_ignores_rest trailing_agent sample_query fresh_world
           [message "system" "You are a chef"]
           (message "assistant" "Try lentil soup")
           [PStr "usage: 120 tokens"; PNone]
           (PStr "Try lentil soup")).
  - reflexivity.
  - repeat constructor.
  - reflexivity.
  - reflexivity.
Defined.


End GenerateTracesMore.

(** * Further properties of scripts/create_dataset.py *)
Module CreateDatasetMore.
Import CreateDataset CreateDatasetSpec.

Lemma str_lower_empty q : str_lower q = "" ↔ q = "".
Proof. destruct q; cbn; split; intros; congruence. Qed.

(** The fallback does not look at the case of the query: two queries that
    differ only in the case of their letters get the same restriction. *)
Theorem infer_restriction_ignores_case restriction q1 q2 :
  str_lower q1 = str_lower q2 →
  infer_restriction restriction (PStr q1) = infer_restriction restriction (PStr q2).
Proof.
  intros Hlower. unfold infer_restriction. cbn [truthy lower rbind].
  assert (Hempty : String.eqb q1 "" = String.eqb q2 "").
  { destruct (String.eqb_spec q1 ""), (String.eqb_spec q2 ""); try reflexivity.
    - subst q1. cbn in Hlower. symmetry in Hlower.
      apply (proj1 (str_lower_empty _)) in Hlower. contradiction.
    - subst q2. cbn in Hlower. apply (proj1 (str_lower_empty _)) in Hlower. contradiction. }
  rewrite Hempty, Hlower. reflexivity.
Qed.

(** ** Reading the query *)

Lemma user_loop_dicts msgs dflt :
  Forall (λ m, is_dict m = true) msgs →
  user_loop msgs dflt =
    Ok match List.find (GenerateTraces.has_role "user") msgs with
       | Some (PDict m) => default (PStr "") (m !! "content")
       | Some _ => PStr ""
       | None => dflt
       end.
Proof.
  induction 1 as [|m msgs Hm _ IH]; [reflexivity|].
  destruct m as [| | | | |d]; try discriminate.
  cbn. destruct (d !! "role") as [v|]; cbn.
  - destruct (eq_str v "user"); [reflexivity|exact IH].
  - exact IH.
Qed.

(** When the input of a trace is a dict whose "messages" is a list of
    dicts, reading the query never raises, whether or not the messages have
    a role: the query is the content of the first message with the role
    "user", and the empty string when that message has no content or when
    there is no such message. *)
Theorem extract_query_first_user trace d msgs :
  input trace = Some (PDict d) →
  d !! "messages" = Some (PList msgs) →
  Forall (λ m, is_dict m = true) msgs →
  extract_query trace =
    Ok match List.find (GenerateTraces.has_role "user") msgs with
       | Some (PDict m) => default (PStr "") (m !! "content")
       | Some _ => PStr ""
       | None => PStr ""
       end.
Proof.
  intros Hinput Hmessages Hdicts. unfold extract_query. rewrite Hinput.
  assert (Htruthy : truthy (PDict d) = true).
  { cbn. destruct (Nat.eqb_spec (size d) 0) as [Hsize|]; [|reflexivity].
    apply map_size_empty_iff in Hsize. subst d.
    rewrite lookup_empty in Hmessages. discriminate. }
  rewrite Htruthy. cbn [is_dict has_key andb].
  rewrite Hmessages. rewrite bool_decide_eq_true_2 by eauto.
  cbn [getitem rbind iter]. rewrite Hmessages. cbn [rbind iter].
  apply user_loop_dicts, Hdicts.
Qed.

Section Platform.
Variable langfuse : platform.

(** ** The traffic with the platform *)

Lemma get_demo_traces_run w :
  ∃ demo_traces w',
    get_demo_traces langfuse w = (Ok demo_traces, w')
    ∧ calls w'
      = calls w ++ CallLangfuse ::
          match new_client langfuse (calls w) with
          | Ok _ => [CallFetchTraces 20 "timestamp.desc"]
          | Raise _ => []
          end
    ∧ (length demo_traces ≤ 12)%nat
    ∧ Forall (λ t, is_demo_trace t = true) demo_traces.
Proof.
  unfold get_demo_traces, Langfuse.
  destruct (new_client langfuse (calls w)) as [[]|e] eqn:Hnew.
  - destruct (fetch_traces langfuse (calls w ++ [CallLangfuse]) 20%nat
                "timestamp.desc") as [data|e] eqn:Hfetch.
    + erewrite try_ok.
      2:{ erewrite bind_ok; [|rewrite call_eq, Hnew; reflexivity].
          erewrite bind_ok; [|apply print_eq].
          erewrite bind_ok; [|rewrite call_eq; cbn; rewrite Hfetch; reflexivity].
          erewrite bind_ok; [|apply print_eq].
          reflexivity. }
      eexists _, _. split; [reflexivity|]. cbn [calls].
      split; [rewrite <- app_assoc; reflexivity|].
      rewrite demo_loop_take by (cbn; lia). rewrite app_nil_l. split.
      * rewrite length_take. lia.
      * apply Forall_take, Forall_forall. intros t Ht.
        apply list_elem_of_filter in Ht. apply Ht.
    + erewrite try_raise.
      2:{ erewrite bind_ok; [|rewrite call_eq, Hnew; reflexivity].
          erewrite bind_ok; [|apply print_eq].
          erewrite bind_raise; [|rewrite call_eq; cbn; rewrite Hfetch; reflexivity].
          reflexivity. }
      erewrite bind_ok; [|apply print_eq].
      eexists _, _. split; [reflexivity|]. cbn [calls].
      split; [rewrite <- app_assoc; reflexivity|]. split; [cbn; lia|constructor].
  - erewrite try_raise.
    2:{ erewrite bind_raise; [|rewrite call_eq, Hnew; reflexivity]. reflexivity. }
    erewrite bind_ok; [|apply print_eq].
    eexists _, _. split; [reflexivity|]. cbn [calls].
    split; [reflexivity|]. split; [cbn; lia|constructor].
Qed.


Lemma metadata_restriction_run trace w :
  ∃ restriction w',
    metadata_restriction langfuse trace w = (Ok restriction, w')
    ∧ console w' = console w
    ∧ calls w' = calls w ++ observation_calls langfuse trace (calls w).
Proof.
  unfold metadata_restriction, observation_calls.
  destruct (observations trace) as [[|obs_id obs]|];
    try (eexists _, w; cbn; rewrite app_nil_r; repeat split; reflexivity).
  destruct (String.eqb obs_id ""); cbn [negb];
    [eexists _, w; cbn; rewrite app_nil_r; repeat split; reflexivity|].
  unfold try_except, Langfuse, mbind, M_bind, call, lift, mret, M_ret. cbn.
  destruct (new_client langfuse (calls w)) as [[]|e];
    [|eexists _, _; repeat split; reflexivity].
  cbn.
  destruct (get_observation langfuse _ obs_id) as [o|e];
    [|eexists _, _; repeat split; cbn; rewrite <- app_assoc; reflexivity].
  destruct (metadata o) as [md|];
    [|eexists _, _; repeat split; cbn; rewrite <- app_assoc; reflexivity].
  destruct (truthy md);
    [|eexists _, _; repeat split; cbn; rewrite <- app_assoc; reflexivity].
  destruct (get md _ _);
    eexists _, _; repeat split; cbn; rewrite <- app_assoc; reflexivity.
Qed.

Lemma extract_trace_data_run trace w :
  ∃ extracted w',
    extract_trace_data langfuse trace w = (Ok extracted, w')
    ∧ (∀ i, extracted = Some i → trace_id i = id trace)
    ∧ calls w'
      = calls w ++ match extract_query trace with
                   | Ok _ => observation_calls langfuse trace (calls w)
                   | Raise _ => []
                   end
    ∧ (length (calls w') ≤ length (calls w) + 2)%nat
    ∧ filter (λ c, creates c = true) (calls w')
      = filter (λ c, creates c = true) (calls w).
Proof.
  assert (Hobs : (length (observation_calls langfuse trace (calls w)) ≤ 2)%nat
                 ∧ filter (λ c, creates c = true)
                     (observation_calls langfuse trace (calls w)) = []).
  { unfold observation_calls.
    destruct (observations trace) as [[|obs_id obs]|]; try (split; [cbn; lia|reflexivity]).
    destruct (String.eqb obs_id ""); [split; [cbn; lia|reflexivity]|].
    destruct (new_client langfuse (calls w)); split; cbn; try lia; reflexivity. }
  destruct Hobs as [Hlen Hcreates].
  destruct (extract_query trace) as [q|e] eqn:Hq.
  - destruct (extract_response_returns trace) as [r Hr].
    destruct (metadata_restriction_run trace w) as (dr & w1 & Hdr & _ & Hcalls).
    rewrite (extract_trace_data_eq _ _ _ _ _ _ _ Hq Hr Hdr).
    destruct (infer_restriction dr q); eexists _, _;
      (split; [reflexivity|]); cbn [calls];
      (split; [try discriminate; intros i [= <-]; reflexivity|]);
      (split; [exact Hcalls|]);
      rewrite Hcalls, length_app, filter_app, Hcreates, app_nil_r;
      (split; [lia|reflexivity]).
  - rewrite (extract_trace_data_query_raises _ _ _ _ Hq).
    eexists _, _. split; [reflexivity|]. cbn [calls].
    split; [discriminate|]. rewrite app_nil_r.
    split; [reflexivity|]. split; [lia|reflexivity].
Qed.

(** [extract_trace_data] never raises; a record it yields names the trace
    it comes from; and the only calls it makes are those that read the
    first observation, at most two, and none when reading the query has
    raised or when the trace has no observation. *)
Theorem extract_trace_data_calls trace w :
  ∃ extracted w',
    extract_trace_data langfuse trace w = (Ok extracted, w')
    ∧ (∀ i, extracted = Some i → trace_id i = id trace)
    ∧ calls w'
      = calls w ++ match extract_query trace with
                   | Ok _ => observation_calls langfuse trace (calls w)
                   | Raise _ => []
                   end
    ∧ (length (calls w') ≤ length (calls w) + 2)%nat
    ∧ filter (λ c, creates c = true) (calls w')
      = filter (λ c, creates c = true) (calls w).
Proof.
  assert (Hobs : (length (observation_calls langfuse trace (calls w)) ≤ 2)%nat
                 ∧ filter (λ c, creates c = true)
                     (observation_calls langfuse trace (calls w)) = []).
  { unfold observation_calls.
    destruct (observations trace) as [[|obs_id obs]|]; try (split; [cbn; lia|reflexivity]).
    destruct (String.eqb obs_id ""); [split; [cbn; lia|reflexivity]|].
    destruct (new_client langfuse (calls w)); split; cbn; try lia; reflexivity. }
  destruct Hobs as [Hlen Hcreates].
  destruct (extract_query trace) as [q|e] eqn:Hq.
  - destruct (extract_response_returns trace) as [r Hr].
    destruct (metadata_restriction_run trace w) as (dr & w1 & Hdr & _ & Hcalls).
    rewrite (extract_trace_data_eq _ _ _ _ _ _ _ Hq Hr Hdr).
    destruct (infer_restriction dr q); eexists _, _;
      (split; [reflexivity|]); cbn [calls];
      (split; [try discriminate; intros i [= <-]; reflexivity|]);
      (split; [exact Hcalls|]);
      rewrite Hcalls, length_app, filter_app, Hcreates, app_nil_r;
      (split; [lia|reflexivity]).
  - rewrite (extract_trace_data_query_raises _ _ _ _ Hq).
    eexists _, _. split; [reflexivity|]. cbn [calls].
    split; [discriminate|]. rewrite app_nil_r.
    split; [reflexivity|]. split; [lia|reflexivity].
Qed.

(** ** What a record holds *)

(** A restriction found in the metadata of the first observation is kept
    as it is: the keywords of the query are not consulted. *)
Theorem extract_trace_data_metadata_wins trace w q obs_id rest o md v :
  extract_query trace = Ok q →
  observations trace = Some (obs_id :: rest) →
  obs_id ≠ "" →
  new_client langfuse (calls w) = Ok () →
  get_observation langfuse (calls w ++ [CallLangfuse]) obs_id = Ok o →
  metadata o = Some (PDict md) →
  md !! "dietary_restriction" = Some v →
  truthy v = true →
  ∃ i w',
    extract_trace_data langfuse trace w = (Ok (Some i), w')
    ∧ query i = q
    ∧ dietary_restriction i = v.
Proof.
  intros Hq Hobs Hid Hnew Hget Hmeta Hmd Hv.
  destruct (extract_response_returns trace) as [r Hr].
  assert (Htruthy : truthy (PDict md) = true).
  { cbn. destruct (Nat.eqb_spec (size md) 0) as [Hsize|]; [|reflexivity].
    apply map_size_empty_iff in Hsize. subst md.
    rewrite lookup_empty in Hmd. discriminate. }
  assert (Hdr : ∃ w1, metadata_restriction langfuse trace w = (Ok v, w1)).
  { unfold metadata_restriction. rewrite Hobs.
    destruct (String.eqb_spec obs_id "") as [|_]; [contradiction|]. cbn [negb].
    unfold try_except, Langfuse, mbind, M_bind, call, lift, mret, M_ret. cbn.
    rewrite Hnew. cbn. rewrite Hget, Hmeta, Htruthy. cbn. rewrite Hmd. cbn.
    eexists. reflexivity. }
  destruct Hdr as [w1 Hdr].
  rewrite (extract_trace_data_eq _ _ _ _ _ _ _ Hq Hr Hdr).
  unfold infer_restriction. rewrite Hv. cbn.
  eexists _, _. split; [reflexivity|]. split; reflexivity.
Qed.

(** When the output of a trace is a dict, the response of the record is its
    "content", and the empty string when it has none (the empty dict
    included). *)
Theorem extract_trace_data_dict_output trace w d :
  output trace = Some (PDict d) →
  ∃ extracted w',
    extract_trace_data langfuse trace w = (Ok extracted, w')
    ∧ ∀ i, extracted = Some i → response i = default (PStr "") (d !! "content").
Proof.
  intros Hout.
  assert (Hr : extract_response trace = Ok (default (PStr "") (d !! "content"))).
  { unfold extract_response. rewrite Hout. cbn.
    destruct (Nat.eqb_spec (size d) 0) as [Hsize|]; [|reflexivity].
    apply map_size_empty_iff in Hsize. subst d. rewrite lookup_empty. reflexivity. }
  destruct (extract_query trace) as [q|e] eqn:Hq.
  - destruct (metadata_restriction_run trace w) as (dr & w1 & Hdr & _).
    rewrite (extract_trace_data_eq _ _ _ _ _ _ _ Hq Hr Hdr).
    destruct (infer_restriction dr q); eexists _, _;
      (split; [reflexivity|]); [intros i [= <-]; reflexivity|discriminate].
  - rewrite (extract_trace_data_query_raises _ _ _ _ Hq).
    eexists _, _. split; [reflexivity|discriminate].
Qed.

(** ** Upload without rollback *)




End Platform.

(** ** The preview *)

Lemma show_eq m s :
  show m s = (Ok (), {| inner := inner s; screen := screen s ++ [m] |}).
Proof. reflexivity. Qed.



Lemma show_dataset_preview_first_raises dataset_items s it rest e :
  filter (λ i, valid i = true) dataset_items = Some it :: rest →
  slice_to (query it) 60 = Raise e →
  show_dataset_preview dataset_items s
  = (Raise e,
     {| inner := inner s;
        screen := screen s ++ [MsgPreviewHeader; MsgRule80; MsgItem 1] |}).
Proof.
  intros Hvalid Hslice. unfold show_dataset_preview.
  repeat (erewrite bind_ok; [|apply show_eq]).
  rewrite Hvalid. cbn [take preview_loop].
  erewrite bind_raise; [reflexivity|].
  erewrite bind_ok; [|apply show_eq].
  erewrite bind_raise; [|rewrite Hslice; reflexivity].
  cbn [inner screen]. rewrite <- !app_assoc. reflexivity.
Qed.

(** The preview cuts the query of an item without checking that it is
    text: when the first item with a truthy response has a query that
    cannot be sliced, such as [None], the preview raises after the header of
    that item. *)
Theorem show_dataset_preview_raises dataset_items s it rest e :
  filter (λ i, valid i = true) dataset_items = Some it :: rest →
  slice_to (query it) 60 = Raise e →
  show_dataset_preview dataset_items s
  = (Raise e,
     {| inner := inner s;
        screen := screen s ++ [MsgPreviewHeader; MsgRule80; MsgItem 1] |}).
Proof.
  intros Hvalid Hslice. unfold show_dataset_preview.
  repeat (erewrite bind_ok; [|apply show_eq]).
  rewrite Hvalid. cbn [take preview_loop].
  erewrite bind_raise; [reflexivity|].
  erewrite bind_ok; [|apply show_eq].
  erewrite bind_raise; [|rewrite Hslice; reflexivity].
  cbn [inner screen]. rewrite <- !app_assoc. reflexivity.
Qed.



(** ** [main] *)

Lemma within_eq {A} (c : M world A) s r w' :
  c (inner s) = (r, w') →
  within c s = (r, {| inner := w'; screen := screen s |}).
Proof. intros H. unfold within. rewrite H. reflexivity. Qed.



Section Pipeline.
Variable langfuse : platform.

Lemma extract_loop_run traces : ∀ acc w,
  ∃ items w',
    extract_loop langfuse traces acc w = (Ok (acc ++ items), w')
    ∧ length items = length traces
    ∧ filter (λ c, creates c = true) (calls w')
      = filter (λ c, creates c = true) (calls w).
Proof.
  induction traces as [|t traces IH]; intros acc w; cbn [extract_loop].
  - exists [], w. rewrite app_nil_r. auto.
  - destruct (extract_trace_data_run langfuse t w)
      as (item & w1 & Hitem & _ & _ & _ & Hcreates).
    erewrite bind_ok; [|exact Hitem].
    destruct (IH (acc ++ [item]) w1) as (items & w' & -> & Hlen & Hcreates').
    exists (item :: items), w'. rewrite <- app_assoc.
    split; [reflexivity|]. split; [cbn; congruence|congruence].
Qed.

(** The stages of [main] up to the preview. *)
Lemma main_eq s traces w1 items w2 :
  get_demo_traces langfuse (inner s) = (Ok traces, w1) →
  extract_loop langfuse traces [] w1 = (Ok items, w2) →
  main langfuse s
  = match traces with
    | [] =>
        (Ok false,
         {| inner := w1;
            screen := screen s ++ [MsgTitle; MsgRule50; MsgNoDemoTraces] |})
    | _ :: _ =>
        if Nat.eqb (length (filter (λ i, valid i = true) items)) 0 then
          (Ok false,
           {| inner := w2;
              screen := screen s
                        ++ [MsgTitle; MsgRule50; MsgExtracting;
                            MsgExtracted (length (filter (λ i, valid i = true) items));
                            MsgNoValidItems] |})
        else
          (show_dataset_preview items ;;
           dataset ← within (create_langfuse_dataset langfuse
                               (filter (λ i, valid i = true) items));
           match dataset with
           | None => mret false
           | Some _ =>
               show MsgComplete ;;
               show MsgDatasetCreated ;;
               show MsgCanExperiment ;;
               mret true
           end)
            {| inner := w2;
               screen := screen s
                         ++ [MsgTitle; MsgRule50; MsgExtracting;
                             MsgExtracted
                               (length (filter (λ i, valid i = true) items))] |}
    end.
Proof.
  intros Hget Hextract. unfold main.
  repeat (erewrite bind_ok; [|apply show_eq]).
  erewrite bind_ok; [|apply within_eq; exact Hget].
  destruct traces as [|t traces].
  - erewrite bind_ok; [|apply show_eq]. cbn [inner screen].
    rewrite <- !app_assoc. reflexivity.
  - erewrite bind_ok; [|apply show_eq].
    erewrite bind_ok; [|apply within_eq; exact Hextract].
    erewrite bind_ok; [|apply show_eq]. cbn [inner screen].
    destruct (Nat.eqb _ 0).
    + erewrite bind_ok; [|apply show_eq]. cbn [inner screen].
      rewrite <- !app_assoc. reflexivity.
    + rewrite <- !app_assoc. reflexivity.
Qed.

Lemma extract_loop_nil w1 items w2 :
  extract_loop langfuse [] [] w1 = (Ok items, w2) → items = [] ∧ w2 = w1.
Proof. intros [= <- <-]. auto. Qed.

Lemma main_stages_creates s traces w1 items w2 :
  get_demo_traces langfuse (inner s) = (Ok traces, w1) →
  extract_loop langfuse traces [] w1 = (Ok items, w2) →
  filter (λ c, creates c = true) (calls w1)
  = filter (λ c, creates c = true) (calls (inner s))
  ∧ filter (λ c, creates c = true) (calls w2)
    = filter (λ c, creates c = true) (calls (inner s))
  ∧ (length items ≤ 12)%nat.
Proof.
  intros Hget Hextract.
  destruct (get_demo_traces_run langfuse (inner s))
    as (traces' & w1' & Hget' & Hcalls & Hlen & _).
  rewrite Hget in Hget'. injection Hget' as <- <-.
  destruct (extract_loop_run traces [] w1) as (items' & w2' & Hextract' & Hlen' & Hcr).
  rewrite Hextract in Hextract'. injection Hextract' as <- <-.
  assert (Hw1 : filter (λ c, creates c = true) (calls w1)
                = filter (λ c, creates c = true) (calls (inner s))).
  { rewrite Hcalls, filter_app.
    destruct (new_client langfuse (calls (inner s))); cbn; apply app_nil_r. }
  split; [exact Hw1|]. split; [congruence|lia].
Qed.

(** When no extracted item has a truthy response (in particular when no
    demo trace was found), [main] returns [False] and has not asked the
    platform to create anything. *)
Theorem main_without_valid_items s traces w1 items w2 :
  get_demo_traces langfuse (inner s) = (Ok traces, w1) →
  extract_loop langfuse traces [] w1 = (Ok items, w2) →
  filter (λ i, valid i = true) items = [] →
  ∃ s', main langfuse s = (Ok false, s')
        ∧ filter (λ c, creates c = true) (calls (inner s'))
          = filter (λ c, creates c = true) (calls (inner s)).
Proof.
  intros Hget Hextract Hvalid.
  destruct (main_stages_creates _ _ _ _ _ Hget Hextract) as (Hw1 & Hw2 & _).
  rewrite (main_eq _ _ _ _ _ Hget Hextract), Hvalid.
  destruct traces; eexists; (split; [reflexivity|]); assumption.
Qed.

(** The preview runs outside every handler: when the first item with a
    truthy response has a query that cannot be sliced, [main] ends with
    that exception, before anything is created on the platform. *)
Theorem main_preview_raises s traces w1 items w2 it rest e :
  get_demo_traces langfuse (inner s) = (Ok traces, w1) →
  extract_loop langfuse traces [] w1 = (Ok items, w2) →
  filter (λ i, valid i = true) items = Some it :: rest →
  slice_to (query it) 60 = Raise e →
  ∃ s', main langfuse s = (Raise e, s')
        ∧ filter (λ c, creates c = true) (calls (inner s'))
          = filter (λ c, creates c = true) (calls (inner s)).
Proof.
  intros Hget Hextract Hvalid Hslice.
  destruct (main_stages_creates _ _ _ _ _ Hget Hextract) as (_ & Hw2 & _).
  rewrite (main_eq _ _ _ _ _ Hget Hextract), Hvalid.
  destruct traces as [|t traces].
  { apply extract_loop_nil in Hextract as [-> _]. discriminate. }
  cbn [length Nat.eqb].
  erewrite bind_raise;
    [|apply (show_dataset_preview_first_raises _ _ _ _ _ Hvalid Hslice)].
  eexists. split; [reflexivity|exact Hw2].
Qed.


End Pipeline.
(** ** Concrete runs *)

Lemma infer_restriction_ignores_case_witness :
  str_lower "I need a GLUTEN-free dinner" = str_lower "i need a gluten-free dinner"
  ∧ infer_restriction (PStr "") (PStr "I need a GLUTEN-free dinner")
    = infer_restriction (PStr "") (PStr "i need a gluten-free dinner").
Proof.
  split; [vm_compute; reflexivity|].
  apply (infer_restriction_ignores_case (PStr "")
           "I need a GLUTEN-free dinner" "i need a gluten-free dinner").
  vm_compute; reflexivity.
Defined.

Lemma extract_query_first_user_witness :
  input observed_trace
  = Some (PDict (<["messages" :=
            PList [user_message "I need a GLUTEN-free dinner"]]> ∅))
  ∧ extract_query observed_trace =
      Ok match List.find (GenerateTraces.has_role "user")
                 [user_message "I need a GLUTEN-free dinner"] with
         | Some (PDict m) => default (PStr "") (m !! "content")
         | Some _ => PStr ""
         | None => PStr ""
         end.
Proof.
  split; [vm_compute; reflexivity|].
  apply (extract_query_first_user observed_trace
           (<["messages" := PList [user_message "I need a GLUTEN-free dinner"]]> ∅)
           [user_message "I need a GLUTEN-free dinner"]).
  - vm_compute; reflexivity.
  - vm_compute; reflexivity.
  - repeat constructor.
Defined.

(** The query speaks of gluten, the metadata says vegan: vegan it is. *)
Lemma extract_trace_data_metadata_wins_witness :
  extract_query observed_trace = Ok (PStr "I need a GLUTEN-free dinner")
  ∧ ∃ i w',
      extract_trace_data (demo_platform []) observed_trace fresh_world
      = (Ok (Some i), w')
      ∧ query i = PStr "I need a GLUTEN-free dinner"
      ∧ dietary_restriction i = PStr "vegan".
Proof.
  split; [vm_compute; reflexivity|].
  apply (extract_trace_data_metadata_wins (demo_platform []) observed_trace
           fresh_world (PStr "I need a GLUTEN-free dinner") "obs-1" ["obs-2"]
           {| metadata := Some (PDict (<["dietary_restriction" := PStr "vegan"]> ∅)) |}
           (<["dietary_restriction" := PStr "vegan"]> ∅) (PStr "vegan")).
  - vm_compute; reflexivity.
  - vm_compute; reflexivity.
  - discriminate.
  - vm_compute; reflexivity.
  - vm_compute; reflexivity.
  - vm_compute; reflexivity.
  - vm_compute; reflexivity.
  - vm_compute; reflexivity.
Defined.



Lemma show_dataset_preview_raises_witness :
  filter (λ i, valid i = true) [None; Some null_query_item]
  = Some null_query_item :: []
  ∧ show_dataset_preview [None; Some null_query_item] fresh_session
    = (Raise (TypeError "'NoneType' object is not subscriptable"),
       {| inner := inner fresh_session;
          screen := screen fresh_session
                    ++ [MsgPreviewHeader; MsgRule80; MsgItem 1] |}).
Proof.
  split; [vm_compute; reflexivity|].
  apply (show_dataset_preview_raises [None; Some null_query_item] fresh_session
           null_query_item []
           (TypeError "'NoneType' object is not subscriptable")).
  - vm_compute; reflexivity.
  - vm_compute; reflexivity.
Defined.

(** Two demo traces without an answer: nothing is created. *)
Lemma main_without_valid_items_witness :
  get_demo_traces (demo_platform [gluten_trace; text_message_trace])
    (inner fresh_session)
  = (Ok [gluten_trace; text_message_trace],
     snd (get_demo_traces (demo_platform [gluten_trace; text_message_trace])
            (inner fresh_session)))
  ∧ ∃ s', main (demo_platform [gluten_trace; text_message_trace]) fresh_session
          = (Ok false, s')
          ∧ filter (λ c, creates c = true) (calls (inner s'))
            = filter (λ c, creates c = true) (calls (inner fresh_session)).
Proof.
  split; [vm_compute; reflexivity|].
  apply (main_without_valid_items
           (demo_platform [gluten_trace; text_message_trace]) fresh_session
           [gluten_trace; text_message_trace]
           (snd (get_demo_traces (demo_platform [gluten_trace; text_message_trace])
                   (inner fresh_session)))
           [Some {| query := PStr "I need a gluten-free dinner";
                    dietary_restriction := PStr "gluten-free";
                    response := PStr "";
                    trace_id := "t-1" |};
            None]
           (snd (extract_loop (demo_platform [gluten_trace; text_message_trace])
                   [gluten_trace; text_message_trace] []
                   (snd (get_demo_traces
                           (demo_platform [gluten_trace; text_message_trace])
                           (inner fresh_session)))))).
  - vm_compute; reflexivity.
  - vm_compute; reflexivity.
  - vm_compute; reflexivity.
Defined.

(** A demo trace whose user message has no content: the record has the
    query [None], and [main] ends with [TypeError] in the preview. *)
Lemma main_preview_raises_witness :
  fst (extract_trace_data (demo_platform [null_content_trace]) null_content_trace
         fresh_world)
  = Ok (Some null_query_item)
  ∧ ∃ s', main (demo_platform [null_content_trace]) fresh_session
          = (Raise (TypeError "'NoneType' object is not subscriptable"), s')
          ∧ filter (λ c, creates c = true) (calls (inner s'))
            = filter (λ c, creates c = true) (calls (inner fresh_session)).
Proof.
  split; [vm_compute; reflexivity|].
  apply (main_preview_raises (demo_platform [null_content_trace]) fresh_session
           [null_content_trace]
           (snd (get_demo_traces (demo_platform [null_content_trace])
                   (inner fresh_session)))
           [Some null_query_item]
           (snd (extract_loop (demo_platform [null_content_trace])
                   [null_content_trace] []
                   (snd (get_demo_traces (demo_platform [null_content_trace])
                           (inner fresh_session)))))
           null_query_item []
           (TypeError "'NoneType' object is not subscriptable")).
  - vm_compute; reflexivity.
  - vm_compute; reflexivity.
  - vm_compute; reflexivity.
  - vm_compute; reflexivity.
Defined.


Lemma extract_trace_data_dict_output_witness :
  output observed_trace = Some (PDict (<["content" := PStr "Try lentil soup"]> ∅))
  ∧ ∃ extracted w',
      extract_trace_data (demo_platform []) observed_trace fresh_world
      = (Ok extracted, w')
      ∧ ∀ i, extracted = Some i →
             response i
             = default (PStr "")
                 ((<["content" := PStr "Try lentil soup"]> ∅ : gmap string pyval)
                    !! "content").
Proof.
  split; [vm_compute; reflexivity|].
  apply (extract_trace_data_dict_output (demo_platform []) observed_trace
           fresh_world (<["content" := PStr "Try lentil soup"]> ∅)).
  vm_compute; reflexivity.
Defined.

(** The platform refuses the fourth item: the function returns [None], the
    two items sent before it stay, and the items after it are not sent. *)
Example create_langfuse_dataset_partial :
  fst (create_langfuse_dataset picky_platform twelve_items fresh_world) = Ok None
  ∧ di_metadata
      <$> uploaded (calls (snd (create_langfuse_dataset picky_platform
                                  twelve_items fresh_world)))
    = (λ t, PDict (<["source_trace_id" := PStr t]>
                   (<["dietary_restriction" := PStr "vegetarian"]> ∅)))
        <$> ["t-01"; "t-02"; "t-04"]
  ∧ last (console (snd (create_langfuse_dataset picky_platform
                          twelve_items fresh_world)))
    = Some (MsgCreateError "Bad Request").
Proof. vm_compute. repeat split. Qed.

End CreateDatasetMore.
